(** * GERRIT author merger: a shallow embedding of [fetcher.py] and [commit.py]

    The development follows the two Python sources.  Decoded JSON is an
    inductive type whose objects are finite maps; Python exceptions are an
    error type threaded through a result monad; everything that touches the
    process (working directory, shell commands, standard output) runs in a
    state-and-error monad over an explicit [World].  The HTTP transport, the
    JSON decoder and the operating system are external: they are the fields of
    the [Host] class, over which the general theorems quantify; the closed
    examples run on the concrete hosts defined before the theorems.

    A Python [str] is modelled by [string], one [ascii] per character. *)

From Stdlib Require Import ZArith String List Ascii Bool Lia Sorted Permutation.
From stdpp Require Import base option list gmap strings pretty.

Local Open Scope string_scope.
Local Open Scope Z_scope.

#[local] Set Warnings "-register-all".

(** ** Decoded JSON values and Python exceptions *)

(** What [json.loads] returns: [None], [bool], [int], [float], [str], [list]
    and [dict] with [str] keys.  A float is carried by its Python [str]
    rendering, the only thing the program could ever do with one. *)
Inductive json : Type :=
| JNull
| JBool (b : bool)
| JInt (n : Z)
| JFloat (rendering : string)
| JStr (s : string)
| JArr (l : list json)
| JObj (m : gmap string json).

(** The exception classes that can cross the program.  Messages are kept only
    for [KeyError], whose argument the program builds itself. *)
Inductive exn : Type :=
| KeyError (arg : json)
| TypeError
| IndexError
| ValueError
| HTTPError
| OSError
| RequestException.

Inductive result (A : Type) : Type :=
| Ok (a : A)
| Raise (e : exn).
Arguments Ok {A} a.
Arguments Raise {A} e.

#[export] Instance result_ret : MRet result := @Ok.
#[export] Instance result_bind : MBind result :=
  fun A B f r => match r with Ok a => f a | Raise e => Raise e end.

Definition is_ok {A} (r : result A) : bool :=
  match r with Ok _ => true | Raise _ => false end.

(** ** Subscription, [container[key]] *)

(** An [int] or a [bool] (a subclass of [int]) can index a sequence. *)
Definition as_index (key : json) : option Z :=
  match key with
  | JInt n => Some n
  | JBool b => Some (if b then 1 else 0)
  | _ => None
  end.

(** Sequence indexing with Python's negative indices. *)
Definition seq_get {A} (l : list A) (i : Z) : option A :=
  let n := Z.of_nat (length l) in
  let j := if i <? 0 then i + n else i in
  if (0 <=? j) && (j <? n) then l !! Z.to_nat j else None.

Definition py_getitem (container key : json) : result json :=
  match container with
  | JObj m =>
      match key with
      | JStr s =>
          match m !! s with
          | Some v => Ok v
          | None => Raise (KeyError key)
          end
      | JArr _ | JObj _ => Raise TypeError          (* unhashable key *)
      | _ => Raise (KeyError key)                   (* never equal to a str key *)
      end
  | JArr l =>
      match as_index key with
      | Some i =>
          match seq_get l i with
          | Some v => Ok v
          | None => Raise IndexError
          end
      | None => Raise TypeError
      end
  | JStr s =>
      match as_index key with
      | Some i =>
          match seq_get (list_ascii_of_string s) i with
          | Some c => Ok (JStr (String c EmptyString))
          | None => Raise IndexError
          end
      | None => Raise TypeError
      end
  | JNull | JBool _ | JInt _ | JFloat _ => Raise TypeError   (* not subscriptable *)
  end.

(** [str(value)].  Scalars are rendered exactly; the rendering of a list or a
    dict (Python's [repr]) is left to the host, no statement depends on it. *)
Definition py_str (container_str : json -> string) (value : json) : string :=
  match value with
  | JNull => "None"
  | JBool true => "True"
  | JBool false => "False"
  | JInt n => pretty n
  | JFloat rendering => rendering
  | JStr s => s
  | JArr _ | JObj _ => container_str value
  end.

(** [for data in value]: the items a [for] loop visits.  A dict yields its
    keys and a str its characters; the rest is not iterable. *)
Definition py_iter (value : json) : result (list json) :=
  match value with
  | JArr l => Ok l
  | JObj m => Ok (JStr <$> (map_to_list m).*1)
  | JStr s => Ok ((fun c => JStr (String c EmptyString)) <$> list_ascii_of_string s)
  | JNull | JBool _ | JInt _ | JFloat _ => Raise TypeError
  end.

(** [s[n:]] *)
Fixpoint string_drop (n : nat) (s : string) : string :=
  match n, s with
  | O, _ => s
  | S n', String _ s' => string_drop n' s'
  | S _, EmptyString => EmptyString
  end.

(** ** The host: operating system, network and JSON decoder *)

(** A [requests.Response], as far as the program reads it. *)
Record Response : Type := mkResponse {
  text : string;
  url : string;
  status_code : Z;
}.

(** [Response.raise_for_status], by the library's contract: [HTTPError] for a
    4xx or 5xx status. *)
Definition raise_for_status (response : Response) : result unit :=
  if (400 <=? status_code response) && (status_code response <? 600)
  then Raise HTTPError else Ok tt.

Class Host : Type := {
  (** everything outside the process: file system, repository, ... *)
  Env : Type;
  (** [subprocess.call(command, shell=True)], muted or not, started in a
      directory: the new environment and the exit status, or the exception
      raised when the command could not be started at all *)
  run_shell : json -> bool -> string -> Env -> Env * result Z;
  (** whether [os.chdir(path)] succeeds *)
  chdir_allowed : string -> Env -> bool;
  (** whether [os.getcwd()] succeeds in the given current directory *)
  getcwd_allowed : string -> Env -> bool;
  (** [requests.get(url, params=...)]; the requests of one run differ in
      their query, so a function of the request describes any run *)
  http_get : string -> list (string * string) -> result Response;
  (** [json.loads] *)
  json_loads : string -> result json;
  (** [str] of a list or a dict *)
  container_str : json -> string;
}.

(** One [subprocess.call], as it happened. *)
Record Call : Type := mkCall {
  command : json;
  muted : bool;
  in_dir : string;
  outcome : result Z;
}.

Section Runtime.
Context {host : Host}.

(** The process state: current directory, outside environment, the lines
    printed so far and the history of shell calls. *)
Record World : Type := mkWorld {
  cwd : string;
  env : Env;
  stdout : list string;
  trace : list Call;
}.

Definition M (A : Type) : Type := World -> World * result A.

#[export] Instance M_ret : MRet M := fun A a w => (w, Ok a).
#[export] Instance M_bind : MBind M := fun A B f m w =>
  match m w with
  | (w', Ok a) => f a w'
  | (w', Raise e) => (w', Raise e)
  end.

Definition lift {A} (r : result A) : M A := fun w => (w, r).

(** [try: body finally: cleanup].  The cleanup always runs; an exception of
    the cleanup replaces the outcome of the body. *)
Definition try_finally {A} (body : M A) (cleanup : M unit) : M A := fun w =>
  let '(w1, r) := body w in
  match cleanup w1 with
  | (w2, Ok _) => (w2, r)
  | (w2, Raise e) => (w2, Raise e)
  end.

Definition os_getcwd : M string := fun w =>
  if getcwd_allowed (cwd w) (env w) then (w, Ok (cwd w)) else (w, Raise OSError).

Definition os_chdir (path : string) : M unit := fun w =>
  if chdir_allowed path (env w)
  then (mkWorld path (env w) (stdout w) (trace w), Ok tt)
  else (w, Raise OSError).

Definition subprocess_call (cmd : json) (quiet : bool) : M Z := fun w =>
  let '(env', r) := run_shell cmd quiet (cwd w) (env w) in
  (mkWorld (cwd w) env' (stdout w) (trace w ++ [mkCall cmd quiet (cwd w) r]), r).

Definition print (line : string) : M unit := fun w =>
  (mkWorld (cwd w) (env w) (stdout w ++ [line]) (trace w), Ok tt).

End Runtime.

(** ** fetcher.py: constants *)

Module Fetcher.

Definition URL_HEADER : string := "https://android-review.googlesource.com".
Definition CHANGES_HEADER : string := URL_HEADER +:+ "/changes/".
Definition PROJECT : string := "platform/art".
Definition BRANCH : string := "master".
Definition AUTHORS : list string :=
  [ "Goran Jakovljevic"; "Alexey Frunze"; "Pavle Batuta"; "Douglas Leung";
    "Chris Larsen"; "Duane Sand"; "Nikola Veljkovic"; "Lazar Trsic" ].

Definition newline : string := String (ascii_of_nat 10) EmptyString.
Definition GERRIT_MAGIC_JSON_PREFIX : string := ")]}'" +:+ newline.

Definition PATH : string := "/home/paki/work/mipsia_master/art".
Definition GIT_CHECKOUT_AUTOMERGE_BRANCH : string := "git checkout script_automerger".
Definition GIT_ABORT_CHERRY_PICK : string := "git cherry-pick --abort".
Definition GIT_FULL_RESET_AOSP : string := "git reset --hard aosp/master".

(** ** class CherryPickInfo *)

Record CherryPickInfo : Type := mkCherryPickInfo {
  json_response : json;
  created_time : json;
  updated_time : json;
  number : json;
}.

(** [__fetch_field(self, field_name, nested_response=None)].  A nested
    response that [is None] falls back to the whole response, also when the
    [None] was read from the JSON.  The [except KeyError] handler concatenates
    [field_name] to a [str], which itself raises [TypeError] for a key that is
    not a [str]. *)
Definition __fetch_field (self_json : json) (field_name : json)
    (nested_response : json) : result json :=
  let response :=
    match nested_response with JNull => self_json | _ => nested_response end in
  match py_getitem response field_name with
  | Raise (KeyError _) =>
      match field_name with
      | JStr name =>
          Raise (KeyError (JStr ("no field " +:+ name +:+ " in JSON response")))
      | _ => Raise TypeError
      end
  | r => r
  end.

Definition fetch_change_id (self_json : json) : result json :=
  __fetch_field self_json (JStr "change_id") JNull.

Definition fetch_change_number (self_json : json) : result json :=
  __fetch_field self_json (JStr "_number") JNull.

Definition fetch_created_time (self_json : json) : result json :=
  __fetch_field self_json (JStr "created") JNull.

Definition fetch_updated_time (self_json : json) : result json :=
  __fetch_field self_json (JStr "updated") JNull.

Definition fetch_current_revision (self_json : json) : result json :=
  __fetch_field self_json (JStr "current_revision") JNull.

(** [CherryPickInfo.__init__]: the three attributes, in source order. *)
Definition CherryPickInfo_init (json_response : json) : result CherryPickInfo :=
  created ← fetch_created_time json_response;
  updated ← fetch_updated_time json_response;
  num ← fetch_change_number json_response;
  mret (mkCherryPickInfo json_response created updated num).

Definition fetch_cherry_pick_string (self : CherryPickInfo) : result json :=
  let j := json_response self in
  cur_rev_id ← fetch_current_revision j;
  all_revs ← __fetch_field j (JStr "revisions") JNull;
  cur_rev ← __fetch_field j cur_rev_id all_revs;
  fetch ← __fetch_field j (JStr "fetch") cur_rev;
  http ← __fetch_field j (JStr "http") fetch;
  commands ← __fetch_field j (JStr "commands") http;
  cherry_pick ← __fetch_field j (JStr "Cherry Pick") commands;
  mret cherry_pick.

(** A patch as the pipeline passes it around: the tuple
    [(cp_string, fail_url)]. *)
Definition patch : Type := json * string.

Section WithHost.
Context {host : Host}.

Definition FAIL_URL_HEADER : string := "https://android-review.googlesource.com/#/c/".

Definition fetch_fail_url (self : CherryPickInfo) : string :=
  FAIL_URL_HEADER +:+ py_str container_str (number self) +:+ "/".

Definition call_bash_muted (cmd : json) : M bool :=
  bash_ret ← subprocess_call cmd true;
  if bash_ret =? 0 then mret true else mret false.

Definition dquote : string := String (ascii_of_nat 34) EmptyString.

Definition make_all_author_patches_query (project owner status : string) : string :=
  let ret := "project:" +:+ project in
  let ret := ret +:+ " AND " +:+ status in
  let ret := ret +:+ " AND owner:" +:+ dquote +:+ owner +:+ dquote in
  ret.

Definition decode_response (response : Response) : M json :=
  let content := text response in
  match raise_for_status response with
  | Ok _ => mret tt
  | Raise _ =>
      print ("ERROR on response to " +:+ url response);;
      print ("server returns: " +:+ text response)
  end;;
  let content :=
    if String.prefix GERRIT_MAGIC_JSON_PREFIX content
    then string_drop (String.length GERRIT_MAGIC_JSON_PREFIX) content
    else content in
  lift (json_loads content).

(** One round of the [for data in ...] loop of [get_author_cherry_picks]:
    the tuple built from one element of the response. *)
Definition cherry_pick_tuple (data : json) : result patch :=
  info ← CherryPickInfo_init data;
  cp_string ← fetch_cherry_pick_string info;
  let fail_url := fetch_fail_url info in
  mret (cp_string, fail_url).

(** The loop itself, [return_list] being its accumulator. *)
Fixpoint collect_cherry_picks (items : list json) (return_list : list patch)
    : result (list patch) :=
  match items with
  | [] => Ok return_list
  | data :: rest =>
      entry ← cherry_pick_tuple data;
      collect_cherry_picks rest (return_list ++ [entry])
  end.

Definition get_author_cherry_picks (project author : string) : M (list patch) :=
  let query_string := make_all_author_patches_query project author "status:open" in
  let payload := [ ("q", query_string);
                   ("o", "CURRENT_REVISION");
                   ("o", "DOWNLOAD_COMMANDS") ] in
  response ← lift (http_get CHANGES_HEADER payload);
  decoded ← decode_response response;
  items ← lift (py_iter decoded);
  lift (collect_cherry_picks items []).

Definition try_cherry_pick (cmd : json) : M bool :=
  res ← call_bash_muted cmd;
  (if negb res then call_bash_muted (JStr GIT_ABORT_CHERRY_PICK);; mret tt
   else mret tt);;
  mret res.

(** [list.sort(key=lambda number: number[1])]: a stable ascending sort on the
    second component, compared as Python compares [str]. *)
Fixpoint insert_by_url (p : patch) (sorted : list patch) : list patch :=
  match sorted with
  | [] => [p]
  | q :: rest =>
      if String.leb (snd p) (snd q) then p :: q :: rest
      else q :: insert_by_url p rest
  end.

Definition sort_by_url (l : list patch) : list patch :=
  foldr insert_by_url [] l.

(** The [for author in AUTHORS] loop of [form_patch_list]. *)
Fixpoint gather_authors (authors : list string) (patch_list : list patch)
    : M (list patch) :=
  match authors with
  | [] => mret patch_list
  | author :: rest =>
      author_result ← get_author_cherry_picks PROJECT author;
      match author_result with
      | _ :: _ => gather_authors rest (patch_list ++ author_result)
      | [] => gather_authors rest patch_list
      end
  end.

(** The [sort] argument is never read. *)
Definition form_patch_list (sort : bool) : M (list patch) :=
  patch_list ← gather_authors AUTHORS [];
  mret (sort_by_url patch_list).

(** The [for patch in patch_list] loop of [try_regular_list]. *)
Fixpoint apply_patches (patch_list regular_list unmerged_list : list patch)
    : M (list patch * list patch) :=
  match patch_list with
  | [] => mret (regular_list, unmerged_list)
  | p :: rest =>
      applied ← try_cherry_pick (fst p);
      if applied : bool
      then apply_patches rest (regular_list ++ [p]) unmerged_list
      else apply_patches rest regular_list (unmerged_list ++ [p])
  end.

Definition try_regular_list (patch_list : list patch) : M (list patch * list patch) :=
  old_path ← os_getcwd;
  try_finally
    (os_chdir PATH;;
     call_bash_muted (JStr GIT_CHECKOUT_AUTOMERGE_BRANCH);;
     call_bash_muted (JStr GIT_FULL_RESET_AOSP);;
     apply_patches patch_list [] [])
    (os_chdir old_path).

Fixpoint print_each (lines : list string) : M unit :=
  match lines with
  | [] => mret tt
  | line :: rest => print line;; print_each rest
  end.

Definition join_with_space (words : list string) : string :=
  foldr (fun word acc => " " +:+ word +:+ acc) "" words.

Definition print_report (start_list regular_list unmerged_list : list patch) : M unit :=
  let command_of (p : patch) := py_str container_str (fst p) in
  print "Patch list report:";;
  print ("Project: " +:+ PROJECT);;
  print ("Branch: " +:+ BRANCH);;
  print ("Authors:" +:+ join_with_space AUTHORS);;
  print "";;
  print "Open patches:";;
  print_each (snd <$> start_list);;
  print "";;
  print "The following commands will merge the patches in regular order:";;
  print_each (command_of <$> regular_list);;
  print "";;
  print "Unable to merge patches:";;
  print_each (snd <$> unmerged_list);;
  print "";;
  print "You may try to merge conflicting patches with the following commands:";;
  print_each (command_of <$> unmerged_list);;
  print "".

(** [test_print]: every command, an empty line, every URL. *)
Definition test_print (in_list : list patch) : M unit :=
  print_each ((fun elem => py_str container_str (fst elem)) <$> in_list);;
  print "";;
  print_each (snd <$> in_list).

Definition main : M unit :=
  fetched_tuples ← form_patch_list true;
  lists ← try_regular_list fetched_tuples;
  print_report fetched_tuples (fst lists) (snd lists).

End WithHost.

End Fetcher.

(** ** commit.py *)

Module Commit.
Section WithHost.
Context {host : Host}.

Definition PATH : string := "/home/paki/work/mipsia_master/art".
Definition EXAMPLE : string :=
  "git fetch https://android.googlesource.com/platform/art refs/changes/65/171665/3 && git cherry-pick FETCH_HEAD".
Definition ABORT_COMMAND : string := "git cherry-pick --abort".
Definition UNDO_COMMAND : string := "git reset --hard aosp/master".

Definition try_cherry_pick (cmd : json) : M bool :=
  result ← subprocess_call cmd false;
  if negb (result =? 0) then
    subprocess_call (JStr ABORT_COMMAND) false;;
    mret false
  else mret true.

Definition work : M unit :=
  ok ← try_cherry_pick (JStr EXAMPLE);
  if ok : bool then print "OKAY" else print "NOT OKAY".

Definition main : M unit :=
  old_path ← os_getcwd;
  try_finally (os_chdir PATH;; work) (os_chdir old_path).

End WithHost.
End Commit.

(** ** What the specification says about a change object

    The change JSON schema: an object with [created], [updated], [_number],
    [current_revision] and [revisions], the apply command being stored at
    [revisions[current_revision].fetch.http.commands["Cherry Pick"]].  The
    definitions of this part follow the schema, not the code; the theorems
    compare the two. *)

(** The outcome of looking a value up along the schema: found, a key absent
    from the object that should hold it, or a value of the wrong JSON type on
    the way (which the schema excludes). *)
Inductive resolution (A : Type) : Type :=
| Resolved (a : A)
| Missing (key : string)
| IllTyped.
Arguments Resolved {A} a.
Arguments Missing {A} key.
Arguments IllTyped {A}.

Fixpoint navigate (value : json) (path : list string) : resolution json :=
  match path with
  | [] => Resolved value
  | key :: rest =>
      match value with
      | JObj m =>
          match m !! key with
          | Some v => navigate v rest
          | None => Missing key
          end
      | _ => IllTyped
      end
  end.

Definition require {A} (m : gmap string json) (key : string)
    (k : json -> resolution A) : resolution A :=
  match m !! key with
  | Some v => k v
  | None => Missing key
  end.

(** The number and the apply command of a change object, or the first key
    that is absent. *)
Definition resolve_change (data : json) : resolution (json * json) :=
  match data with
  | JObj m =>
      require m "created" (fun _ =>
      require m "updated" (fun _ =>
      require m "_number" (fun num =>
      require m "current_revision" (fun rev =>
      require m "revisions" (fun revs =>
        match rev with
        | JStr rev_id =>
            match navigate revs [rev_id; "fetch"; "http"; "commands"; "Cherry Pick"] with
            | Resolved cmd => Resolved (num, cmd)
            | Missing key => Missing key
            | IllTyped => IllTyped
            end
        | _ => IllTyped
        end)))))
  | _ => IllTyped
  end.

Definition schema_typed (data : json) : bool :=
  match resolve_change data with
  | IllTyped => false
  | _ => true
  end.

Definition lacks_a_field (data : json) : bool :=
  match resolve_change data with
  | Missing _ => true
  | _ => false
  end.

Definition field_missing (key : string) : exn :=
  KeyError (JStr ("no field " +:+ key +:+ " in JSON response")).

(** The fields section 4.1 of the specification calls required. *)
Definition spec_required_fields : list string :=
  [ "change_id"; "_number"; "created"; "updated"; "current_revision" ].

(** The review URL as the specification builds it, [base] ending in a slash. *)
Definition review_base : string := Fetcher.URL_HEADER +:+ "/".
Definition review_url (rendered_number : string) : string :=
  review_base +:+ "#/c/" +:+ rendered_number +:+ "/".

(** What the specification expects of the construction of a descriptor. *)
Definition expected_tuple {host : Host} (r : resolution (json * json))
    : result Fetcher.patch :=
  match r with
  | Resolved (num, cmd) => Ok (cmd, review_url (py_str container_str num))
  | Missing key => Raise (field_missing key)
  | IllTyped => Raise TypeError
  end.

(** The order of the sort: by review URL, as Python compares [str]. *)
Definition url_le (p q : Fetcher.patch) : Prop := String.leb (snd p) (snd q) = true.

(** ** What the specification says about a run of the applier *)

(** A host on which no operating-system primitive raises: every shell command
    can be started and yields an exit status, every directory can be entered
    and the current directory can be read. *)
Definition dependable (host : Host) : Prop :=
  (forall cmd quiet dir e, exists status, snd (run_shell cmd quiet dir e) = Ok status)
  /\ (forall path e, chdir_allowed path e = true)
  /\ (forall dir e, getcwd_allowed dir e = true).

(** The shell calls one attempt causes, given the exit status of the apply
    command and the exit status of the abort command (read only when the
    apply command failed). *)
Definition calls_of (dir : string) (attempt : Fetcher.patch * (Z * Z)) : list Call :=
  let '(p, (status, abort_status)) := attempt in
  mkCall (fst p) true dir (Ok status)
  :: (if status =? 0 then []
      else [mkCall (JStr Fetcher.GIT_ABORT_CHERRY_PICK) true dir (Ok abort_status)]).

(** Apply, then abort on a non-zero status: what one attempt does to the
    world, whichever of the two programs makes it. *)
Definition attempt_outcome {host : Host} (quiet : bool) (abort : string)
    (cmd : json) (w : World) : World * result bool :=
  let '(env1, r) := run_shell cmd quiet (cwd w) (env w) in
  let w1 := mkWorld (cwd w) env1 (stdout w) (trace w ++ [mkCall cmd quiet (cwd w) r]) in
  match r with
  | Raise e => (w1, Raise e)
  | Ok status =>
      if status =? 0 then (w1, Ok true)
      else
        let '(env2, r2) := run_shell (JStr abort) quiet (cwd w) env1 in
        let w2 := mkWorld (cwd w) env2 (stdout w)
                    (trace w1 ++ [mkCall (JStr abort) quiet (cwd w) r2]) in
        match r2 with
        | Ok _ => (w2, Ok false)
        | Raise e => (w2, Raise e)
        end
  end.

(** The two programs share the apply-and-abort primitive: [fetcher.py] mutes
    its commands, [commit.py] does not. *)
Definition try_cherry_pick_of {host : Host} (quiet : bool) : json -> M bool :=
  if quiet then Fetcher.try_cherry_pick else Commit.try_cherry_pick.

Definition abort_command_of (quiet : bool) : string :=
  if quiet then Fetcher.GIT_ABORT_CHERRY_PICK else Commit.ABORT_COMMAND.

Definition succeeded (attempt : Fetcher.patch * (Z * Z)) : bool :=
  fst (snd attempt) =? 0.

Definition applied_of (attempts : list (Fetcher.patch * (Z * Z))) : list Fetcher.patch :=
  fst <$> List.filter succeeded attempts.

Definition conflicts_of (attempts : list (Fetcher.patch * (Z * Z))) : list Fetcher.patch :=
  fst <$> List.filter (fun a => negb (succeeded a)) attempts.

Definition raised (c : Call) : bool := negb (is_ok (outcome c)).

(** The lines an error status makes [decode_response] print. *)
Definition error_log (response : Response) : list string :=
  if is_ok (raise_for_status response) then []
  else [ "ERROR on response to " +:+ url response;
         "server returns: " +:+ text response ].

(** ** Concrete inputs *)

Definition obj (fields : list (string * json)) : json := JObj (list_to_map fields).

(** A change object with every field the code reads, [updated] apart when
    [with_updated] is false.  It has no [change_id]. *)
Definition sample_change (with_updated : bool) (n : Z) (cmd : string) : json :=
  obj ([ ("created", JStr "2015-09-22 10:00:00") ]
       ++ (if with_updated then [ ("updated", JStr "2015-09-23 11:30:00") ] else [])
       ++ [ ("_number", JInt n);
            ("current_revision", JStr "3f2a");
            ("revisions",
              obj [ ("3f2a",
                obj [ ("fetch",
                  obj [ ("http",
                    obj [ ("commands", obj [ ("Cherry Pick", JStr cmd) ]) ]) ]) ]) ]) ]).

Definition quoted (s : string) : string := Fetcher.dquote +:+ s +:+ Fetcher.dquote.

(** The JSON text of [sample_change with_updated n cmd]. *)
Definition sample_change_text (with_updated : bool) (n : Z) (cmd : string) : string :=
  "{" +:+ quoted "created" +:+ ":" +:+ quoted "2015-09-22 10:00:00" +:+ ","
  +:+ (if with_updated
       then quoted "updated" +:+ ":" +:+ quoted "2015-09-23 11:30:00" +:+ ","
       else "")
  +:+ quoted "_number" +:+ ":" +:+ pretty n +:+ ","
  +:+ quoted "current_revision" +:+ ":" +:+ quoted "3f2a" +:+ ","
  +:+ quoted "revisions" +:+ ":{" +:+ quoted "3f2a" +:+ ":{" +:+ quoted "fetch"
  +:+ ":{" +:+ quoted "http" +:+ ":{" +:+ quoted "commands" +:+ ":{"
  +:+ quoted "Cherry Pick" +:+ ":" +:+ quoted cmd +:+ "}}}}}}".

Definition body_two : string := "[" +:+ sample_change_text true 2 "pick 2" +:+ "]".
Definition body_one : string := "[" +:+ sample_change_text true 1 "pick 1" +:+ "]".
Definition body_broken : string :=
  "[" +:+ sample_change_text true 3 "pick 3" +:+ ","
  +:+ sample_change_text false 4 "pick 4" +:+ "]".

Definition owner_query (author : string) : string :=
  Fetcher.make_all_author_patches_query Fetcher.PROJECT author "status:open".

Definition served (body : string) (status : Z) : result Response :=
  Ok (mkResponse (Fetcher.GERRIT_MAGIC_JSON_PREFIX +:+ body) Fetcher.CHANGES_HEADER status).

(** A review service on which the first author of the roster owns change 2,
    the second owns change 1 and the others own nothing. *)
Definition sample_site (params : list (string * string)) : result Response :=
  match params with
  | ("q", q) :: _ =>
      if String.eqb q (owner_query "Goran Jakovljevic") then served body_two 200
      else if String.eqb q (owner_query "Alexey Frunze") then served body_one 200
      else served "[]" 200
  | _ => Raise RequestException
  end.

(** The same service, the third author owning a change 3 and a change 4 that
    lacks its [updated] field. *)
Definition broken_site (params : list (string * string)) : result Response :=
  match params with
  | ("q", q) :: _ =>
      if String.eqb q (owner_query "Pavle Batuta") then served body_broken 200
      else sample_site params
  | _ => Raise RequestException
  end.

(** [json.loads] on the bodies the two services serve. *)
Definition sample_loads (body : string) : result json :=
  if String.eqb body body_two then Ok (JArr [sample_change true 2 "pick 2"])
  else if String.eqb body body_one then Ok (JArr [sample_change true 1 "pick 1"])
  else if String.eqb body body_broken
  then Ok (JArr [sample_change true 3 "pick 3"; sample_change false 4 "pick 4"])
  else if String.eqb body "[]" then Ok (JArr [])
  else Raise ValueError.

(** A host whose shell answers by command alone and on which every directory
    stays reachable. *)
Definition scripted_host (shell : json -> result Z)
    (site : list (string * string) -> result Response) : Host :=
  {| Env := unit;
     run_shell := fun cmd _ _ e => (e, shell cmd);
     chdir_allowed := fun _ _ => true;
     getcwd_allowed := fun _ _ => true;
     http_get := fun _ params => site params;
     json_loads := sample_loads;
     container_str := fun _ => "" |}.

(** The second patch conflicts, everything else succeeds. *)
Definition second_conflicts (cmd : json) : result Z :=
  match cmd with
  | JStr s => if String.eqb s "apply P2" then Ok 1 else Ok 0
  | _ => Ok 0
  end.

(** No [git] on the machine: the shell reports 127 for every command. *)
Definition git_not_installed (cmd : json) : result Z := Ok 127.

(** The shell itself cannot be started for the second patch. *)
Definition second_cannot_start (cmd : json) : result Z :=
  match cmd with
  | JStr s => if String.eqb s "apply P2" then Raise OSError else Ok 0
  | _ => Ok 0
  end.

Definition usual_host : Host := scripted_host second_conflicts sample_site.
Definition broken_host : Host := scripted_host second_conflicts broken_site.
Definition gitless_host : Host := scripted_host git_not_installed sample_site.
Definition unstartable_host : Host := scripted_host second_cannot_start sample_site.

Definition P1 : Fetcher.patch := (JStr "apply P1", review_url "1").
Definition P2 : Fetcher.patch := (JStr "apply P2", review_url "2").
Definition P3 : Fetcher.patch := (JStr "apply P3", review_url "3").

Definition start_world (host : Host) (e : @Env host) : @World host :=
  @mkWorld host "/home/paki" e [] [].

(** A host on which the directory the run started in disappears as soon as
    the first patch is applied. *)
Definition vanishing_host : Host :=
  {| Env := bool;
     run_shell := fun cmd _ _ present =>
       match cmd with
       | JStr s => (if String.eqb s "apply P1" then false else present, Ok 0)
       | _ => (present, Ok 0)
       end;
     chdir_allowed := fun path present =>
       if String.eqb path "/home/paki" then present else true;
     getcwd_allowed := fun _ _ => true;
     http_get := fun _ params => sample_site params;
     json_loads := sample_loads;
     container_str := fun _ => "" |}.

(** ** What the rest of the code is measured against *)

(** The world after some lines were printed. *)
Definition printed {host : Host} (w : World) (lines : list string) : World :=
  mkWorld (cwd w) (env w) (stdout w ++ lines) (trace w).

(** The report, line by line: the heading, the open patches, the commands
    that applied, and the URLs and the commands of the conflicts. *)
Definition report_lines {host : Host}
    (start_list regular_list unmerged_list : list Fetcher.patch) : list string :=
  [ "Patch list report:";
    "Project: platform/art";
    "Branch: master";
    "Authors: Goran Jakovljevic Alexey Frunze Pavle Batuta Douglas Leung Chris Larsen Duane Sand Nikola Veljkovic Lazar Trsic";
    "";
    "Open patches:" ]
  ++ (snd <$> start_list)
  ++ [ ""; "The following commands will merge the patches in regular order:" ]
  ++ ((fun p => py_str container_str (fst p)) <$> regular_list)
  ++ [ ""; "Unable to merge patches:" ]
  ++ (snd <$> unmerged_list)
  ++ [ ""; "You may try to merge conflicting patches with the following commands:" ]
  ++ ((fun p => py_str container_str (fst p)) <$> unmerged_list)
  ++ [ "" ].

(** A shell call made quietly from inside the repository. *)
Definition in_repository (c : Call) : Prop :=
  in_dir c = Fetcher.PATH /\ muted c = true.

(** The line [commit.py] prints for an exit status. *)
Definition verdict (status : Z) : string :=
  if status =? 0 then "OKAY" else "NOT OKAY".

(** A change object whose [revisions] is [null] and which carries the entry
    of its current revision itself. *)
Definition null_revisions_fields (cmd : string) : list (string * json) :=
  [ ("created", JStr "2015-09-22 10:00:00");
    ("updated", JStr "2015-09-23 11:30:00");
    ("_number", JInt 7);
    ("current_revision", JStr "3f2a");
    ("revisions", JNull);
    ("3f2a",
      obj [ ("fetch",
        obj [ ("http",
          obj [ ("commands", obj [ ("Cherry Pick", JStr cmd) ]) ]) ]) ]) ].

Definition change_with_null_revisions (cmd : string) : json :=
  obj (null_revisions_fields cmd).

(** A host whose review service answers every query with a JSON object
    instead of an array. *)
Definition body_error : string :=
  "{" +:+ quoted "message" +:+ ":" +:+ quoted "Not Found" +:+ "}".

Definition error_object_host : Host :=
  {| Env := unit;
     run_shell := fun cmd _ _ e => (e, second_conflicts cmd);
     chdir_allowed := fun _ _ => true;
     getcwd_allowed := fun _ _ => true;
     http_get := fun _ _ => served body_error 404;
     json_loads := fun body =>
       if String.eqb body body_error then Ok (obj [("message", JStr "Not Found")])
       else Raise ValueError;
     container_str := fun _ => "" |}.

(** A host without network, and one on which the repository cannot be
    entered. *)
Definition offline_host : Host :=
  {| Env := unit;
     run_shell := fun cmd _ _ e => (e, second_conflicts cmd);
     chdir_allowed := fun _ _ => true;
     getcwd_allowed := fun _ _ => true;
     http_get := fun _ _ => Raise RequestException;
     json_loads := sample_loads;
     container_str := fun _ => "" |}.

Definition no_repository_host : Host :=
  {| Env := unit;
     run_shell := fun cmd _ _ e => (e, second_conflicts cmd);
     chdir_allowed := fun path _ => negb (String.eqb path Fetcher.PATH);
     getcwd_allowed := fun _ _ => true;
     http_get := fun _ params => sample_site params;
     json_loads := sample_loads;
     container_str := fun _ => "" |}.

(** * Theorems *)

(** ** Reading fields of a change object *)

Section FieldLemmas.
Context {host : Host}.

Lemma fetch_field_object (j : json) (key : string) (m : gmap string json) :
  Fetcher.__fetch_field j (JStr key) (JObj m)
  = match m !! key with Some v => Ok v | None => Raise (field_missing key) end.
Proof. unfold Fetcher.__fetch_field, py_getitem. destruct (m !! key); reflexivity. Qed.

Lemma fetch_field_whole (m : gmap string json) (key : string) :
  Fetcher.__fetch_field (JObj m) (JStr key) JNull
  = match m !! key with Some v => Ok v | None => Raise (field_missing key) end.
Proof. unfold Fetcher.__fetch_field, py_getitem. destruct (m !! key); reflexivity. Qed.

(** The constructor reads [created], [updated] and [_number], in this order,
    and nothing else. *)
Lemma CherryPickInfo_init_object (m : gmap string json) :
  Fetcher.CherryPickInfo_init (JObj m)
  = match m !! "created", m !! "updated", m !! "_number" with
    | Some created, Some updated, Some num =>
        Ok (Fetcher.mkCherryPickInfo (JObj m) created updated num)
    | None, _, _ => Raise (field_missing "created")
    | Some _, None, _ => Raise (field_missing "updated")
    | Some _, Some _, None => Raise (field_missing "_number")
    end.
Proof.
  unfold Fetcher.CherryPickInfo_init, Fetcher.fetch_created_time,
    Fetcher.fetch_updated_time, Fetcher.fetch_change_number.
  rewrite !fetch_field_whole.
  destruct (m !! "created"), (m !! "updated"), (m !! "_number"); reflexivity.
Qed.

Ltac next_field :=
  cbn [mbind result_bind mret result_ret Fetcher.json_response];
  rewrite ?fetch_field_object, ?fetch_field_whole.

(** On a change object typed as the schema says, the code builds exactly what
    the schema promises: the tuple when every key is there, and a [KeyError]
    naming the first absent key otherwise. *)
Lemma cherry_pick_tuple_follows_schema (data : json) :
  schema_typed data = true ->
  Fetcher.cherry_pick_tuple data = expected_tuple (resolve_change data).
Proof.
  unfold schema_typed.
  destruct data as [ | | | | | | m]; try discriminate.
  unfold Fetcher.cherry_pick_tuple. rewrite CherryPickInfo_init_object.
  unfold resolve_change, require.
  destruct (m !! "created") as [created|]; [|reflexivity].
  destruct (m !! "updated") as [updated|]; [|reflexivity].
  destruct (m !! "_number") as [num|]; [|reflexivity].
  unfold Fetcher.fetch_cherry_pick_string, Fetcher.fetch_current_revision.
  next_field.
  destruct (m !! "current_revision") as [rev|]; [|reflexivity].
  next_field.
  destruct (m !! "revisions") as [revs|]; [|reflexivity].
  destruct rev as [ | | | | rev_id | | ]; try discriminate.
  cbn [navigate].
  destruct revs as [ | | | | | | revs]; try discriminate.
  next_field.
  destruct (revs !! rev_id) as [cur|]; [|reflexivity].
  destruct cur as [ | | | | | | cur]; try discriminate.
  next_field.
  destruct (cur !! "fetch") as [fetch|]; [|reflexivity].
  destruct fetch as [ | | | | | | fetch]; try discriminate.
  next_field.
  destruct (fetch !! "http") as [http|]; [|reflexivity].
  destruct http as [ | | | | | | http]; try discriminate.
  next_field.
  destruct (http !! "commands") as [commands|]; [|reflexivity].
  destruct commands as [ | | | | | | commands]; try discriminate.
  next_field.
  destruct (commands !! "Cherry Pick") as [cherry_pick|]; [|reflexivity].
  intros _. reflexivity.
Qed.

(** The loop stops at the first element that lacks a field. *)
Lemma collect_stops_at_missing_field (items : list json) :
  forallb schema_typed items = true ->
  existsb lacks_a_field items = true ->
  forall return_list, exists key,
    Fetcher.collect_cherry_picks items return_list = Raise (field_missing key).
Proof.
  induction items as [|data rest IH]; [discriminate|].
  cbn [forallb existsb Fetcher.collect_cherry_picks].
  intros [Htyped Hrest]%andb_prop Hlacks return_list.
  rewrite (cherry_pick_tuple_follows_schema data Htyped).
  unfold lacks_a_field in Hlacks at 1.
  destruct (resolve_change data) as [[num cmd]|key|] eqn:Hres.
  - cbn in Hlacks |- *. apply (IH Hrest Hlacks).
  - exists key. reflexivity.
  - unfold schema_typed in Htyped. rewrite Hres in Htyped. discriminate.
Qed.

End FieldLemmas.

(** ** The magic token *)

Lemma prefix_app (p s : string) : String.prefix p (p +:+ s) = true.
Proof.
  induction p as [|a p IH]; [destruct s; reflexivity|].
  change (String a p +:+ s) with (String a (p +:+ s)).
  cbn [String.prefix]. destruct (ascii_dec a a); [exact IH|congruence].
Qed.

Lemma string_drop_app (p s : string) : string_drop (String.length p) (p +:+ s) = s.
Proof. induction p as [|a p IH]; [reflexivity|exact IH]. Qed.

Lemma prefix_split (p s : string) :
  String.prefix p s = true -> s = p +:+ string_drop (String.length p) s.
Proof.
  revert s. induction p as [|a p IH]; intros s H; [reflexivity|].
  destruct s as [|b s]; [discriminate|].
  cbn [String.prefix] in H. destruct (ascii_dec a b) as [->|]; [|discriminate].
  change (String b s = String b (p +:+ string_drop (String.length p) s)).
  f_equal. apply IH, H.
Qed.

Section NetworkLemmas.
Context {host : Host}.

(** [decode_response] in closed form: the world only gains the log lines of
    an error status, and the body is decoded whatever the status. *)
Lemma decode_response_run (response : Response) (w : World) :
  Fetcher.decode_response response w
  = (mkWorld (cwd w) (env w) (stdout w ++ error_log response) (trace w),
     json_loads
       (if String.prefix Fetcher.GERRIT_MAGIC_JSON_PREFIX (text response)
        then string_drop (String.length Fetcher.GERRIT_MAGIC_JSON_PREFIX) (text response)
        else text response)).
Proof.
  unfold Fetcher.decode_response, error_log.
  destruct (raise_for_status response); destruct w as [dir outside out calls];
    unfold mbind, M_bind, mret, M_ret, print, lift; cbn;
    rewrite <- ?app_assoc, ?app_nil_r; reflexivity.
Qed.

(** The outcome of a fetch does not depend on the state of the process. *)
Lemma get_author_cherry_picks_outcome (project author : string) (w : World) :
  snd (Fetcher.get_author_cherry_picks project author w)
  = (response ← http_get Fetcher.CHANGES_HEADER
       [ ("q", Fetcher.make_all_author_patches_query project author "status:open");
         ("o", "CURRENT_REVISION"); ("o", "DOWNLOAD_COMMANDS") ];
     decoded ← snd (Fetcher.decode_response response w);
     items ← py_iter decoded;
     Fetcher.collect_cherry_picks items []).
Proof.
  unfold Fetcher.get_author_cherry_picks, mbind, M_bind, result_bind, lift.
  destruct (http_get _ _) as [response|e]; [|reflexivity].
  rewrite decode_response_run. cbn [snd].
  destruct (json_loads _) as [decoded|e]; [|reflexivity].
  destruct (py_iter decoded) as [items|e]; reflexivity.
Qed.

Lemma get_author_cherry_picks_pure (project author : string) (w w' : World) :
  snd (Fetcher.get_author_cherry_picks project author w)
  = snd (Fetcher.get_author_cherry_picks project author w').
Proof.
  rewrite !get_author_cherry_picks_outcome.
  destruct (http_get _ _) as [response|e]; [|reflexivity].
  unfold mbind, result_bind. rewrite !decode_response_run. reflexivity.
Qed.

(** An author whose fetch raises makes the whole roster loop raise. *)
Lemma gather_authors_raises (author : string) (roster : list string) :
  author ∈ roster ->
  (forall w, is_ok (snd (Fetcher.get_author_cherry_picks Fetcher.PROJECT author w)) = false) ->
  forall patch_list w, is_ok (snd (Fetcher.gather_authors roster patch_list w)) = false.
Proof.
  intros Hin Hraise.
  induction roster as [|first rest IH]; [inversion Hin|].
  intros patch_list w. cbn [Fetcher.gather_authors]. unfold mbind, M_bind.
  destruct (Fetcher.get_author_cherry_picks Fetcher.PROJECT first w)
    as [w1 [author_result|e]] eqn:Hfirst; [|reflexivity].
  apply elem_of_cons in Hin as [->|Hin].
  - specialize (Hraise w). rewrite Hfirst in Hraise. discriminate.
  - destruct author_result; apply (IH Hin).
Qed.

End NetworkLemmas.

(** ** Claims about parsing and fetching *)

(** C6.  For a change object that holds [created], [updated], an integer
    [_number] and a [current_revision] under which [revisions] leads through
    [fetch], [http] and [commands] to a ["Cherry Pick"] entry, parsing returns
    exactly that entry as apply command and, as review URL, the service URL
    followed by [/], [#/c/], the decimal number and [/]. *)
Theorem parsing_reproduces_command_and_url {host : Host}
    (m : gmap string json) (n : Z) (rev_id : string) (revs cmd : json) :
  is_Some (m !! "created") ->
  is_Some (m !! "updated") ->
  m !! "_number" = Some (JInt n) ->
  m !! "current_revision" = Some (JStr rev_id) ->
  m !! "revisions" = Some revs ->
  navigate revs [rev_id; "fetch"; "http"; "commands"; "Cherry Pick"] = Resolved cmd ->
  Fetcher.cherry_pick_tuple (JObj m)
  = Ok (cmd, (Fetcher.URL_HEADER +:+ "/") +:+ "#/c/" +:+ pretty n +:+ "/").
Proof.
  intros [created Hcreated] [updated Hupdated] Hnumber Hrev Hrevs Hpath.
  assert (Hres : resolve_change (JObj m) = Resolved (JInt n, cmd)).
  { unfold resolve_change, require.
    rewrite Hcreated, Hupdated, Hnumber, Hrev, Hrevs, Hpath. reflexivity. }
  rewrite cherry_pick_tuple_follows_schema.
  - rewrite Hres. reflexivity.
  - unfold schema_typed. rewrite Hres. reflexivity.
Qed.

Lemma parsing_reproduces_command_and_url_witness :
  Fetcher.cherry_pick_tuple (host := usual_host) (sample_change true 171665 Commit.EXAMPLE)
  = Ok (JStr Commit.EXAMPLE, "https://android-review.googlesource.com/#/c/171665/").
Proof.
  apply (parsing_reproduces_command_and_url (host := usual_host) _ 171665 "3f2a"
           (obj [ ("3f2a", obj [ ("fetch", obj [ ("http",
              obj [ ("commands", obj [ ("Cherry Pick", JStr Commit.EXAMPLE) ]) ]) ]) ]) ])).
  - eexists. vm_compute. reflexivity.
  - eexists. vm_compute. reflexivity.
  - vm_compute. reflexivity.
  - vm_compute. reflexivity.
  - vm_compute. reflexivity.
  - vm_compute. reflexivity.
Defined.

(** C3, as the code has it.  On a change object typed as the schema says, the
    constructor succeeds exactly when [created], [updated] and [_number] are
    present; building the descriptor raises the field-missing [KeyError] for
    the first key of the schema that is absent and succeeds when none is.  The
    number is rendered as it is: nothing looks at its sign. *)
Theorem descriptor_construction {host : Host} (m : gmap string json) :
  schema_typed (JObj m) = true ->
  (is_ok (Fetcher.CherryPickInfo_init (JObj m)) = true
   <-> is_Some (m !! "created") /\ is_Some (m !! "updated") /\ is_Some (m !! "_number"))
  /\ (forall key, resolve_change (JObj m) = Missing key ->
        Fetcher.cherry_pick_tuple (JObj m) = Raise (field_missing key))
  /\ (forall num cmd, resolve_change (JObj m) = Resolved (num, cmd) ->
        Fetcher.cherry_pick_tuple (JObj m)
        = Ok (cmd, review_url (py_str container_str num))).
Proof.
  intros Htyped. split; [|split].
  - rewrite CherryPickInfo_init_object.
    destruct (m !! "created"), (m !! "updated"), (m !! "_number"); cbn;
      (split; [intros H|intros (H1 & H2 & H3)]);
      first [ reflexivity | discriminate
            | repeat split; eexists; reflexivity
            | destruct H1 as [? ?]; discriminate
            | destruct H2 as [? ?]; discriminate
            | destruct H3 as [? ?]; discriminate ].
  - intros key Hres.
    rewrite (cherry_pick_tuple_follows_schema _ Htyped), Hres. reflexivity.
  - intros num cmd Hres.
    rewrite (cherry_pick_tuple_follows_schema _ Htyped), Hres. reflexivity.
Qed.

Lemma descriptor_construction_witness :
  Fetcher.cherry_pick_tuple (host := usual_host) (sample_change false 4 "pick 4")
  = Raise (field_missing "updated").
Proof.
  refine (proj1 (proj2 (descriptor_construction (host := usual_host)
                          (list_to_map _) _)) "updated" _);
    vm_compute; reflexivity.
Defined.

(** C3, as it is stated, fails: a change object whose number is negative is
    constructed all the same. *)
Lemma negative_number_is_accepted :
  (exists info, Fetcher.CherryPickInfo_init (sample_change true (-1) "pick") = Ok info
                /\ Fetcher.number info = JInt (-1) /\ -1 < 0)
  /\ Fetcher.cherry_pick_tuple (host := usual_host) (sample_change true (-1) "pick")
     = Ok (JStr "pick", "https://android-review.googlesource.com/#/c/-1/").
Proof.
  split.
  - eexists. split; [vm_compute; reflexivity|]. split; [reflexivity|lia].
  - vm_compute. reflexivity.
Qed.

(** C4, as the code has it.  When the decoded response of an author is an
    array of change objects typed as the schema says and one of them lacks a
    key the code reads ([created], [updated], [_number], [current_revision],
    [revisions] or a key on the way to the ["Cherry Pick"] entry), the fetch
    of that author raises the field-missing [KeyError] and returns no tuple,
    not even those of the well-formed elements before; and when the author is
    on the roster, [form_patch_list] raises too, so no patch list is formed. *)
Theorem malformed_change_fails_batch {host : Host}
    (author : string) (response : Response) (items : list json) (w0 : World) :
  http_get Fetcher.CHANGES_HEADER
    [ ("q", Fetcher.make_all_author_patches_query Fetcher.PROJECT author "status:open");
      ("o", "CURRENT_REVISION"); ("o", "DOWNLOAD_COMMANDS") ] = Ok response ->
  snd (Fetcher.decode_response response w0) = Ok (JArr items) ->
  forallb schema_typed items = true ->
  existsb lacks_a_field items = true ->
  (exists key, forall w,
      snd (Fetcher.get_author_cherry_picks Fetcher.PROJECT author w)
      = Raise (field_missing key))
  /\ (author ∈ Fetcher.AUTHORS ->
      forall sort w, is_ok (snd (Fetcher.form_patch_list sort w)) = false).
Proof.
  intros Hget Hdecoded Htyped Hlacks.
  destruct (collect_stops_at_missing_field items Htyped Hlacks []) as [key Hkey].
  assert (Hfetch : forall w,
    snd (Fetcher.get_author_cherry_picks Fetcher.PROJECT author w)
    = Raise (field_missing key)).
  { intros w. rewrite (get_author_cherry_picks_pure _ _ w w0).
    rewrite get_author_cherry_picks_outcome, Hget.
    unfold mbind, result_bind. rewrite Hdecoded. exact Hkey. }
  split; [exists key; exact Hfetch|].
  intros Hin sort w. unfold Fetcher.form_patch_list, mbind, M_bind.
  assert (Hraise : is_ok (snd (Fetcher.gather_authors Fetcher.AUTHORS [] w)) = false).
  { apply (gather_authors_raises author); [exact Hin|].
    intros w'. rewrite Hfetch. reflexivity. }
  destruct (Fetcher.gather_authors Fetcher.AUTHORS [] w) as [w1 [patch_list|e]];
    [discriminate|reflexivity].
Qed.

Lemma malformed_change_fails_batch_witness :
  (exists key, forall w,
      snd (Fetcher.get_author_cherry_picks (host := broken_host)
             Fetcher.PROJECT "Pavle Batuta" w)
      = Raise (field_missing key))
  /\ ("Pavle Batuta" ∈ Fetcher.AUTHORS ->
      forall sort w,
        is_ok (snd (Fetcher.form_patch_list (host := broken_host) sort w)) = false).
Proof.
  apply (malformed_change_fails_batch (host := broken_host) "Pavle Batuta"
           (mkResponse (Fetcher.GERRIT_MAGIC_JSON_PREFIX +:+ body_broken)
              Fetcher.CHANGES_HEADER 200)
           [sample_change true 3 "pick 3"; sample_change false 4 "pick 4"]
           (start_world broken_host tt));
    vm_compute; reflexivity.
Defined.

(** C4, as it is stated, fails for [change_id], which the specification lists
    among the required fields: the only change of the first author has none,
    and the fetch returns its tuple. *)
Lemma change_id_is_not_required :
  "change_id" ∈ spec_required_fields
  /\ navigate (sample_change true 2 "pick 2") ["change_id"] = Missing "change_id"
  /\ snd (Fetcher.decode_response (host := usual_host)
            (mkResponse (Fetcher.GERRIT_MAGIC_JSON_PREFIX +:+ body_two)
               Fetcher.CHANGES_HEADER 200) (start_world usual_host tt))
     = Ok (JArr [sample_change true 2 "pick 2"])
  /\ snd (Fetcher.get_author_cherry_picks (host := usual_host)
            Fetcher.PROJECT "Goran Jakovljevic" (start_world usual_host tt))
     = Ok [(JStr "pick 2", "https://android-review.googlesource.com/#/c/2/")].
Proof.
  split; [apply list_elem_of_In; left; reflexivity|].
  repeat split; vm_compute; reflexivity.
Qed.

(** C7.  The decoder removes the magic token from a body that starts with it
    and leaves any other body alone, then hands the rest to [json.loads]; an
    error status only adds two lines to the output, so two responses with the
    same body decode to the same value whatever their status. *)
Theorem decode_response_strips_token_and_ignores_status {host : Host}
    (response : Response) (w : World) :
  (forall rest, text response = Fetcher.GERRIT_MAGIC_JSON_PREFIX +:+ rest ->
     snd (Fetcher.decode_response response w) = json_loads rest)
  /\ ((forall rest, text response <> Fetcher.GERRIT_MAGIC_JSON_PREFIX +:+ rest) ->
     snd (Fetcher.decode_response response w) = json_loads (text response))
  /\ (forall other w', text other = text response ->
     snd (Fetcher.decode_response other w') = snd (Fetcher.decode_response response w))
  /\ stdout (fst (Fetcher.decode_response response w))
     = (stdout w ++ error_log response)%list.
Proof.
  rewrite decode_response_run. cbn [fst snd stdout]. repeat split.
  - intros rest ->. rewrite prefix_app, string_drop_app. reflexivity.
  - intros Hnot.
    destruct (String.prefix _ _) eqn:Hprefix; [|reflexivity].
    apply prefix_split in Hprefix. destruct (Hnot _ Hprefix).
  - intros other w' Htext. rewrite decode_response_run, Htext. reflexivity.
Qed.

Lemma decode_response_strips_token_and_ignores_status_witness :
  snd (Fetcher.decode_response (host := usual_host)
         (mkResponse (Fetcher.GERRIT_MAGIC_JSON_PREFIX +:+ "[]") Fetcher.CHANGES_HEADER 503)
         (start_world usual_host tt))
  = Ok (JArr [])
  /\ snd (Fetcher.decode_response (host := usual_host)
            (mkResponse "[]" Fetcher.CHANGES_HEADER 200) (start_world usual_host tt))
     = Ok (JArr []).
Proof.
  split.
  - destruct (decode_response_strips_token_and_ignores_status (host := usual_host)
                (mkResponse (Fetcher.GERRIT_MAGIC_JSON_PREFIX +:+ "[]")
                   Fetcher.CHANGES_HEADER 503)
                (start_world usual_host tt)) as (Hstrip & _).
    rewrite (Hstrip "[]" eq_refl). vm_compute. reflexivity.
  - destruct (decode_response_strips_token_and_ignores_status (host := usual_host)
                (mkResponse "[]" Fetcher.CHANGES_HEADER 200)
                (start_world usual_host tt)) as (_ & Hkeep & _).
    rewrite Hkeep.
    + vm_compute. reflexivity.
    + intros rest. vm_compute. discriminate.
Defined.

(** ** Apply and abort *)

Section ApplyLemmas.
Context {host : Host}.

Ltac run_monad :=
  unfold Fetcher.call_bash_muted; unfold mbind, M_bind, mret, M_ret, subprocess_call.

Lemma fetcher_try_cherry_pick_run (cmd : json) (w : World) :
  Fetcher.try_cherry_pick cmd w
  = attempt_outcome true Fetcher.GIT_ABORT_CHERRY_PICK cmd w.
Proof.
  unfold Fetcher.try_cherry_pick, attempt_outcome. run_monad.
  destruct (run_shell cmd true (cwd w) (env w)) as [env1 [status|e]]; [|reflexivity].
  destruct (status =? 0); cbn; [reflexivity|].
  destruct (run_shell _ true (cwd w) env1) as [env2 [abort_status|e]]; [|reflexivity].
  destruct (abort_status =? 0); reflexivity.
Qed.

Lemma commit_try_cherry_pick_run (cmd : json) (w : World) :
  Commit.try_cherry_pick cmd w = attempt_outcome false Commit.ABORT_COMMAND cmd w.
Proof.
  unfold Commit.try_cherry_pick, attempt_outcome. run_monad.
  destruct (run_shell cmd false (cwd w) (env w)) as [env1 [status|e]]; [|reflexivity].
  destruct (status =? 0); cbn; [reflexivity|].
  destruct (run_shell _ false (cwd w) env1) as [env2 [abort_status|e]]; reflexivity.
Qed.

Lemma try_cherry_pick_of_run (quiet : bool) (cmd : json) (w : World) :
  try_cherry_pick_of quiet cmd w = attempt_outcome quiet (abort_command_of quiet) cmd w.
Proof.
  destruct quiet; [apply fetcher_try_cherry_pick_run|apply commit_try_cherry_pick_run].
Qed.

End ApplyLemmas.

(** C8.  In both programs, when the apply command exits with a non-zero
    status the abort command is the next and last shell call of the attempt
    and the attempt returns the classification [False] instead of raising;
    when the apply command exits with zero it is the only shell call and the
    attempt returns [True]. *)
Theorem abort_runs_exactly_on_failure {host : Host}
    (quiet : bool) (cmd : json) (w : World) (env1 : Env) (status abort_status : Z) :
  run_shell cmd quiet (cwd w) (env w) = (env1, Ok status) ->
  (status <> 0 ->
   snd (run_shell (JStr (abort_command_of quiet)) quiet (cwd w) env1) = Ok abort_status) ->
  is_ok (snd (try_cherry_pick_of quiet cmd w)) = true
  /\ trace (fst (try_cherry_pick_of quiet cmd w))
     = (trace w ++
        mkCall cmd quiet (cwd w) (Ok status)
        :: (if status =? 0 then []
            else [mkCall (JStr (abort_command_of quiet)) quiet (cwd w) (Ok abort_status)]))%list.
Proof.
  intros Happly Habort.
  rewrite try_cherry_pick_of_run. unfold attempt_outcome. rewrite Happly.
  destruct (Z.eqb_spec status 0) as [->|Hfailed]; [split; reflexivity|].
  specialize (Habort Hfailed).
  destruct (run_shell _ quiet (cwd w) env1) as [env2 r2].
  cbn in Habort. subst r2. cbn. rewrite <- app_assoc. split; reflexivity.
Qed.

Lemma abort_runs_exactly_on_failure_witness :
  trace (fst (Fetcher.try_cherry_pick (host := usual_host) (JStr "apply P2")
                (start_world usual_host tt)))
  = [ mkCall (JStr "apply P2") true "/home/paki" (Ok 1);
      mkCall (JStr "git cherry-pick --abort") true "/home/paki" (Ok 0) ].
Proof.
  apply (abort_runs_exactly_on_failure (host := usual_host) true (JStr "apply P2")
           (start_world usual_host tt) tt 1 0).
  - reflexivity.
  - intros _. reflexivity.
Defined.

(** C10.  In both programs the attempt returns [True] exactly when the apply
    command exits with status zero and [False] exactly when it does not,
    whatever status the abort command then exits with. *)
Theorem classification_follows_apply_status {host : Host}
    (quiet : bool) (cmd : json) (w : World) (env1 : Env) (status : Z) :
  run_shell cmd quiet (cwd w) (env w) = (env1, Ok status) ->
  (status <> 0 ->
   exists abort_status,
     snd (run_shell (JStr (abort_command_of quiet)) quiet (cwd w) env1) = Ok abort_status) ->
  (snd (try_cherry_pick_of quiet cmd w) = Ok true <-> status = 0)
  /\ (snd (try_cherry_pick_of quiet cmd w) = Ok false <-> status <> 0).
Proof.
  intros Happly Habort.
  rewrite try_cherry_pick_of_run. unfold attempt_outcome. rewrite Happly.
  destruct (Z.eqb_spec status 0) as [->|Hfailed].
  - cbn. split; split; first [reflexivity|discriminate|congruence].
  - destruct (Habort Hfailed) as [abort_status Hstatus].
    destruct (run_shell _ quiet (cwd w) env1) as [env2 r2].
    cbn in Hstatus. subst r2. cbn.
    split; split; first [reflexivity|discriminate|congruence].
Qed.

Lemma classification_follows_apply_status_witness :
  snd (Commit.try_cherry_pick (host := gitless_host) (JStr Commit.EXAMPLE)
         (start_world gitless_host tt)) = Ok false.
Proof.
  apply (classification_follows_apply_status (host := gitless_host) false
           (JStr Commit.EXAMPLE) (start_world gitless_host tt) tt 127).
  - reflexivity.
  - intros _. exists 127. reflexivity.
  - discriminate.
Defined.

(** ** The sequential applier *)

Section ApplierLemmas.
Context {host : Host}.

(** One attempt on a dependable host: it returns whether the apply command
    exited with zero and leaves the calls [calls_of] lists. *)
Lemma attempt_on_dependable_host (Hdep : dependable host) (p : Fetcher.patch) (w : World) :
  exists statuses w',
    Fetcher.try_cherry_pick (fst p) w = (w', Ok (succeeded (p, statuses)))
    /\ trace w' = (trace w ++ calls_of (cwd w) (p, statuses))%list
    /\ cwd w' = cwd w.
Proof.
  destruct Hdep as (Hshell & _ & _).
  rewrite fetcher_try_cherry_pick_run. unfold attempt_outcome.
  destruct (Hshell (fst p) true (cwd w) (env w)) as [status Hstatus].
  destruct (run_shell (fst p) true (cwd w) (env w)) as [env1 r].
  cbn in Hstatus. subst r.
  destruct (Hshell (JStr Fetcher.GIT_ABORT_CHERRY_PICK) true (cwd w) env1)
    as [abort_status Habort].
  exists (status, abort_status).
  unfold succeeded, calls_of. cbn [fst snd].
  destruct (status =? 0); [eexists; repeat split; reflexivity|].
  destruct (run_shell _ true (cwd w) env1) as [env2 r2].
  cbn in Habort. subst r2.
  eexists. repeat split. cbn. rewrite <- app_assoc. reflexivity.
Qed.

Lemma apply_patches_on_dependable_host (Hdep : dependable host)
    (patch_list : list Fetcher.patch) :
  forall (regular_list unmerged_list : list Fetcher.patch) (w : World),
  exists outs w',
    length outs = length patch_list
    /\ Fetcher.apply_patches patch_list regular_list unmerged_list w
       = (w', Ok ((regular_list ++ applied_of (zip patch_list outs))%list,
                  (unmerged_list ++ conflicts_of (zip patch_list outs))%list))
    /\ trace w' = (trace w ++ concat (calls_of (cwd w) <$> zip patch_list outs))%list
    /\ cwd w' = cwd w.
Proof.
  induction patch_list as [|p rest IH]; intros regular_list unmerged_list w.
  - exists [], w. cbn. rewrite !app_nil_r. repeat split; reflexivity.
  - destruct (attempt_on_dependable_host Hdep p w) as (statuses & w1 & Hrun & Htrace & Hcwd).
    cbn [Fetcher.apply_patches]. unfold mbind, M_bind. rewrite Hrun.
    destruct (succeeded (p, statuses)) eqn:Hok.
    + destruct (IH (regular_list ++ [p])%list unmerged_list w1)
        as (outs & w' & Hlen & Hrest & Htrace' & Hcwd').
      exists (statuses :: outs), w'.
      unfold applied_of, conflicts_of in *. cbn [zip zip_with List.filter fmap list_fmap concat length].
      rewrite Hok. cbn [negb fmap list_fmap fst].
      rewrite Hrest, Htrace', Htrace, Hcwd', Hcwd, <- !app_assoc.
      split; [congruence|]. split; [reflexivity|]. split; reflexivity.
    + destruct (IH regular_list (unmerged_list ++ [p])%list w1)
        as (outs & w' & Hlen & Hrest & Htrace' & Hcwd').
      exists (statuses :: outs), w'.
      unfold applied_of, conflicts_of in *. cbn [zip zip_with List.filter fmap list_fmap concat length].
      rewrite Hok. cbn [negb fmap list_fmap fst].
      rewrite Hrest, Htrace', Htrace, Hcwd', Hcwd, <- !app_assoc.
      split; [congruence|]. split; [reflexivity|]. split; reflexivity.
Qed.

Lemma call_bash_muted_run (cmd : json) (w : World) :
  Fetcher.call_bash_muted cmd w
  = (mkWorld (cwd w) (fst (run_shell cmd true (cwd w) (env w))) (stdout w)
       (trace w ++ [mkCall cmd true (cwd w) (snd (run_shell cmd true (cwd w) (env w)))]),
     match snd (run_shell cmd true (cwd w) (env w)) with
     | Ok status => Ok (status =? 0)
     | Raise e => Raise e
     end).
Proof.
  unfold Fetcher.call_bash_muted, mbind, M_bind, mret, M_ret, subprocess_call.
  destruct (run_shell cmd true (cwd w) (env w)) as [env1 [status|e]]; [|reflexivity].
  cbn [fst snd]. destruct (status =? 0); reflexivity.
Qed.

End ApplierLemmas.

(** C1.  On a host where no system call raises, the applier attempts every
    patch of the list, in list order and whatever the earlier attempts gave:
    after the checkout and the reset, the shell history holds, for each patch
    in turn, its apply command followed by the abort command when the apply
    status was not zero.  It returns the patches whose apply status was zero
    and those whose status was not, each in list order. *)
Theorem try_regular_list_partitions {host : Host} (Hdep : dependable host)
    (patch_list : list Fetcher.patch) (w : World) :
  exists (checkout reset : Z) (outs : list (Z * Z)),
    length outs = length patch_list
    /\ snd (Fetcher.try_regular_list patch_list w)
       = Ok (applied_of (zip patch_list outs), conflicts_of (zip patch_list outs))
    /\ trace (fst (Fetcher.try_regular_list patch_list w))
       = (trace w
          ++ mkCall (JStr Fetcher.GIT_CHECKOUT_AUTOMERGE_BRANCH) true Fetcher.PATH (Ok checkout)
          :: mkCall (JStr Fetcher.GIT_FULL_RESET_AOSP) true Fetcher.PATH (Ok reset)
          :: concat (calls_of Fetcher.PATH <$> zip patch_list outs))%list.
Proof.
  pose proof Hdep as (Hshell & Hchdir & Hgetcwd).
  unfold Fetcher.try_regular_list, try_finally.
  unfold mbind, M_bind, os_getcwd, os_chdir.
  rewrite Hgetcwd, Hchdir. rewrite !call_bash_muted_run. cbn [cwd env stdout trace].
  destruct (Hshell (JStr Fetcher.GIT_CHECKOUT_AUTOMERGE_BRANCH) true Fetcher.PATH (env w))
    as [checkout Hcheckout].
  destruct (run_shell (JStr Fetcher.GIT_CHECKOUT_AUTOMERGE_BRANCH) true Fetcher.PATH (env w))
    as [env1 r1].
  cbn in Hcheckout. subst r1. cbn [fst snd].
  destruct (Hshell (JStr Fetcher.GIT_FULL_RESET_AOSP) true Fetcher.PATH env1)
    as [reset Hreset].
  destruct (run_shell (JStr Fetcher.GIT_FULL_RESET_AOSP) true Fetcher.PATH env1)
    as [env2 r2].
  cbn in Hreset. subst r2. cbn [fst snd].
  match goal with
  | |- context [Fetcher.apply_patches patch_list [] [] ?w2] =>
      destruct (apply_patches_on_dependable_host Hdep patch_list [] [] w2)
        as (outs & w' & Hlen & Hrun & Htrace & Hcwd)
  end.
  exists checkout, reset, outs. rewrite Hrun, Hchdir. cbn [fst snd trace].
  rewrite Htrace. cbn [trace cwd]. rewrite <- !app_assoc.
  split; [exact Hlen|]. split; reflexivity.
Qed.

Lemma usual_host_is_dependable : dependable usual_host.
Proof.
  split; [|split]; [|reflexivity|reflexivity].
  intros cmd quiet dir e. unfold usual_host, scripted_host. cbn [run_shell snd].
  unfold second_conflicts. destruct cmd; eauto.
  destruct (String.eqb _ _); eauto.
Qed.

Lemma try_regular_list_partitions_witness :
  exists (checkout reset : Z) (outs : list (Z * Z)),
    length outs = length [P1; P2; P3]
    /\ snd (Fetcher.try_regular_list (host := usual_host) [P1; P2; P3]
              (start_world usual_host tt))
       = Ok (applied_of (zip [P1; P2; P3] outs), conflicts_of (zip [P1; P2; P3] outs))
    /\ trace (fst (Fetcher.try_regular_list (host := usual_host) [P1; P2; P3]
                     (start_world usual_host tt)))
       = (trace (start_world usual_host tt)
          ++ mkCall (JStr Fetcher.GIT_CHECKOUT_AUTOMERGE_BRANCH) true Fetcher.PATH (Ok checkout)
          :: mkCall (JStr Fetcher.GIT_FULL_RESET_AOSP) true Fetcher.PATH (Ok reset)
          :: concat (calls_of Fetcher.PATH <$> zip [P1; P2; P3] outs))%list.
Proof.
  apply (try_regular_list_partitions (host := usual_host) usual_host_is_dependable).
Defined.

(** The example of the specification: the second of three patches conflicts. *)
Example first_and_third_applied :
  snd (Fetcher.try_regular_list (host := usual_host) [P1; P2; P3]
         (start_world usual_host tt))
  = Ok ([P1; P3], [P2]).
Proof. vm_compute. reflexivity. Qed.

(** ** Leaving and restoring the working directory *)

Section ScopeLemmas.
Context {host : Host}.

(** Whatever the body does, a cleanup that succeeds in changing to [path]
    leaves the process there. *)
Lemma try_finally_restores {A} (body : M A) (path : string) (w : World) :
  chdir_allowed path (env (fst (try_finally body (os_chdir path) w))) = true ->
  cwd (fst (try_finally body (os_chdir path) w)) = path.
Proof.
  unfold try_finally, os_chdir.
  destruct (body w) as [w1 r].
  destruct (chdir_allowed path (env w1)) eqn:Hallowed; cbn; [reflexivity|].
  rewrite Hallowed. discriminate.
Qed.

(** An exception of the body or of the cleanup leaves [try ... finally]. *)
Lemma try_finally_raises {A} (body : M A) (path : string) (w : World) :
  is_ok (snd (body w)) = false
  \/ chdir_allowed path (env (fst (try_finally body (os_chdir path) w))) = false ->
  is_ok (snd (try_finally body (os_chdir path) w)) = false.
Proof.
  unfold try_finally, os_chdir.
  destruct (body w) as [w1 r].
  destruct (chdir_allowed path (env w1)) eqn:Hallowed; cbn; [|reflexivity].
  rewrite Hallowed. intros [Hbody|Hcleanup]; [exact Hbody|discriminate].
Qed.

(** The cleanup makes no shell call and prints nothing. *)
Lemma try_finally_frame {A} (body : M A) (path : string) (w : World) :
  trace (fst (try_finally body (os_chdir path) w)) = trace (fst (body w))
  /\ stdout (fst (try_finally body (os_chdir path) w)) = stdout (fst (body w)).
Proof.
  unfold try_finally, os_chdir.
  destruct (body w) as [w1 r].
  destruct (chdir_allowed path (env w1)); split; reflexivity.
Qed.

(** One attempt: it prints nothing, stays where it is, and raises when one of
    its shell calls did. *)
Lemma attempt_outcome_frame (quiet : bool) (abort : string) (cmd : json) (w : World) :
  stdout (fst (attempt_outcome quiet abort cmd w)) = stdout w
  /\ cwd (fst (attempt_outcome quiet abort cmd w)) = cwd w
  /\ exists new,
       trace (fst (attempt_outcome quiet abort cmd w)) = (trace w ++ new)%list
       /\ (existsb raised new = true ->
           is_ok (snd (attempt_outcome quiet abort cmd w)) = false).
Proof.
  unfold attempt_outcome.
  destruct (run_shell cmd quiet (cwd w) (env w)) as [env1 [status|e]].
  - destruct (status =? 0).
    + repeat split. eexists. split; [reflexivity|]. cbn. discriminate.
    + destruct (run_shell (JStr abort) quiet (cwd w) env1) as [env2 [abort_status|e]];
        repeat split; eexists; cbn [fst snd trace]; rewrite <- app_assoc;
        (split; [reflexivity|]); cbn; first [discriminate|reflexivity].
  - repeat split. eexists. split; reflexivity.
Qed.

Lemma apply_patches_frame (patch_list : list Fetcher.patch) :
  forall (regular_list unmerged_list : list Fetcher.patch) (w : World),
    stdout (fst (Fetcher.apply_patches patch_list regular_list unmerged_list w)) = stdout w
    /\ exists new,
         trace (fst (Fetcher.apply_patches patch_list regular_list unmerged_list w))
         = (trace w ++ new)%list
         /\ (existsb raised new = true ->
             is_ok (snd (Fetcher.apply_patches patch_list regular_list unmerged_list w))
             = false).
Proof.
  induction patch_list as [|p rest IH]; intros regular_list unmerged_list w.
  - split; [reflexivity|]. exists []. rewrite app_nil_r. split; [reflexivity|discriminate].
  - cbn [Fetcher.apply_patches]. unfold mbind, M_bind.
    rewrite fetcher_try_cherry_pick_run.
    destruct (attempt_outcome_frame true Fetcher.GIT_ABORT_CHERRY_PICK (fst p) w)
      as (Hout & _ & new1 & Htrace1 & Hraised1).
    destruct (attempt_outcome true Fetcher.GIT_ABORT_CHERRY_PICK (fst p) w)
      as [w1 [applied|e]]; cbn [fst snd] in *.
    + assert (Hrest : forall regular unmerged,
        stdout (fst (Fetcher.apply_patches rest regular unmerged w1)) = stdout w
        /\ exists new,
             trace (fst (Fetcher.apply_patches rest regular unmerged w1))
             = (trace w ++ new)%list
             /\ (existsb raised new = true ->
                 is_ok (snd (Fetcher.apply_patches rest regular unmerged w1)) = false)).
      { intros regular unmerged.
        destruct (IH regular unmerged w1) as (Hout2 & new2 & Htrace2 & Hraised2).
        split; [congruence|]. exists (new1 ++ new2)%list.
        split; [rewrite Htrace2, Htrace1, app_assoc; reflexivity|].
        rewrite existsb_app. intros [Hin1|Hin2]%orb_prop; [|auto].
        apply Hraised1 in Hin1. discriminate. }
      destruct applied; apply Hrest.
    + split; [exact Hout|]. exists new1. split; [exact Htrace1|reflexivity].
Qed.

Lemma try_regular_list_unfold (patch_list : list Fetcher.patch) (w : World) :
  Fetcher.try_regular_list patch_list w
  = if getcwd_allowed (cwd w) (env w)
    then try_finally
           (os_chdir Fetcher.PATH;;
            Fetcher.call_bash_muted (JStr Fetcher.GIT_CHECKOUT_AUTOMERGE_BRANCH);;
            Fetcher.call_bash_muted (JStr Fetcher.GIT_FULL_RESET_AOSP);;
            Fetcher.apply_patches patch_list [] [])
           (os_chdir (cwd w)) w
    else (w, Raise OSError).
Proof.
  unfold Fetcher.try_regular_list, os_getcwd.
  unfold mbind at 1. unfold M_bind at 1.
  destruct (getcwd_allowed (cwd w) (env w)); reflexivity.
Qed.

Lemma commit_main_unfold (w : World) :
  Commit.main w
  = if getcwd_allowed (cwd w) (env w)
    then try_finally (os_chdir Commit.PATH;; Commit.work) (os_chdir (cwd w)) w
    else (w, Raise OSError).
Proof.
  unfold Commit.main, os_getcwd.
  unfold mbind at 1. unfold M_bind at 1.
  destruct (getcwd_allowed (cwd w) (env w)); reflexivity.
Qed.

(** [try_regular_list] prints nothing and raises when one of its shell calls
    did. *)
Lemma try_regular_list_frame (patch_list : list Fetcher.patch) (w : World) :
  stdout (fst (Fetcher.try_regular_list patch_list w)) = stdout w
  /\ exists new,
       trace (fst (Fetcher.try_regular_list patch_list w)) = (trace w ++ new)%list
       /\ (existsb raised new = true ->
           is_ok (snd (Fetcher.try_regular_list patch_list w)) = false).
Proof.
  rewrite try_regular_list_unfold.
  destruct (getcwd_allowed (cwd w) (env w)).
  2:{ split; [reflexivity|]. exists []. rewrite app_nil_r. split; [reflexivity|discriminate]. }
  match goal with
  | |- context [try_finally ?b (os_chdir ?p) w] =>
      set (body := b);
      destruct (try_finally_frame body p w) as [-> ->];
      pose proof (try_finally_raises body p w) as Hraises
  end.
  assert (Hbody : stdout (fst (body w)) = stdout w
    /\ exists new, trace (fst (body w)) = (trace w ++ new)%list
       /\ (existsb raised new = true -> is_ok (snd (body w)) = false)).
  { subst body. unfold mbind, M_bind, os_chdir.
    destruct (chdir_allowed Fetcher.PATH (env w)).
    2:{ split; [reflexivity|]. exists []. rewrite app_nil_r.
        split; [reflexivity|discriminate]. }
    rewrite !call_bash_muted_run. cbn [cwd env stdout trace].
    destruct (run_shell (JStr Fetcher.GIT_CHECKOUT_AUTOMERGE_BRANCH) true Fetcher.PATH (env w))
      as [env1 [checkout|e]]; cbn [fst snd].
    2:{ split; [reflexivity|]. eexists. split; reflexivity. }
    destruct (run_shell (JStr Fetcher.GIT_FULL_RESET_AOSP) true Fetcher.PATH env1)
      as [env2 [reset|e]]; cbn [fst snd].
    2:{ split; [reflexivity|]. eexists. rewrite <- app_assoc. split; reflexivity. }
    match goal with
    | |- context [Fetcher.apply_patches patch_list [] [] ?w2] =>
        destruct (apply_patches_frame patch_list [] [] w2)
          as (Hout & new & Htrace & Hraised)
    end.
    split; [exact Hout|].
    exists (mkCall (JStr Fetcher.GIT_CHECKOUT_AUTOMERGE_BRANCH) true Fetcher.PATH (Ok checkout)
            :: mkCall (JStr Fetcher.GIT_FULL_RESET_AOSP) true Fetcher.PATH (Ok reset)
            :: new).
    split; [|exact Hraised].
    rewrite Htrace. cbn [trace]. rewrite <- !app_assoc. reflexivity. }
  destruct Hbody as (Hout & new & Htrace & Hraised).
  split; [exact Hout|]. exists new. split; [exact Htrace|].
  intros Hin. apply Hraises. left. auto.
Qed.

End ScopeLemmas.

(** C2.  In both programs the directory recorded on entry is the current
    directory again when the call is over, on every path out of it on which
    the restoring [os.chdir] of the [finally] block can enter that directory:
    a normal return, and an exception of [os.getcwd], of the first
    [os.chdir] or of any shell call. *)
Theorem working_directory_restored {host : Host}
    (patch_list : list Fetcher.patch) (w : World) :
  (chdir_allowed (cwd w) (env (fst (Fetcher.try_regular_list patch_list w))) = true ->
   cwd (fst (Fetcher.try_regular_list patch_list w)) = cwd w)
  /\ (chdir_allowed (cwd w) (env (fst (Commit.main w))) = true ->
      cwd (fst (Commit.main w)) = cwd w).
Proof.
  split.
  - rewrite try_regular_list_unfold.
    destruct (getcwd_allowed (cwd w) (env w)); [apply try_finally_restores|reflexivity].
  - rewrite commit_main_unfold.
    destruct (getcwd_allowed (cwd w) (env w)); [apply try_finally_restores|reflexivity].
Qed.

Lemma working_directory_restored_witness :
  snd (Fetcher.try_regular_list (host := unstartable_host) [P1; P2; P3]
         (start_world unstartable_host tt)) = Raise OSError
  /\ cwd (fst (Fetcher.try_regular_list (host := unstartable_host) [P1; P2; P3]
                 (start_world unstartable_host tt))) = "/home/paki"
  /\ cwd (fst (Commit.main (host := unstartable_host) (start_world unstartable_host tt)))
     = "/home/paki".
Proof.
  split; [vm_compute; reflexivity|].
  destruct (working_directory_restored (host := unstartable_host) [P1; P2; P3]
              (start_world unstartable_host tt)) as [Hfetcher Hcommit].
  split; [apply Hfetcher|apply Hcommit]; reflexivity.
Defined.

(** C9, as the code has it.  When a shell call of the run raises because the
    command could not be started, or when the directory recorded on entry
    cannot be entered again, [try_regular_list] raises, and [main], which
    catches nothing, raises without printing a line of the report.  An exit
    status, 127 included, is no exception and stops nothing. *)
Theorem unstartable_command_is_fatal {host : Host}
    (patch_list : list Fetcher.patch) (w : World) (new : list Call) :
  trace (fst (Fetcher.try_regular_list patch_list w)) = (trace w ++ new)%list ->
  existsb raised new = true
  \/ chdir_allowed (cwd w) (env (fst (Fetcher.try_regular_list patch_list w))) = false ->
  is_ok (snd (Fetcher.try_regular_list patch_list w)) = false
  /\ forall w0, Fetcher.form_patch_list true w0 = (w, Ok patch_list) ->
       is_ok (snd (Fetcher.main w0)) = false
       /\ stdout (fst (Fetcher.main w0)) = stdout w.
Proof.
  intros Htrace Hfatal.
  destruct (try_regular_list_frame patch_list w) as (Hout & new' & Htrace' & Hraised).
  assert (Hraise : is_ok (snd (Fetcher.try_regular_list patch_list w)) = false).
  { destruct Hfatal as [Hin|Hlost].
    - rewrite Htrace in Htrace'. apply app_inv_head in Htrace'. subst new'. auto.
    - revert Hlost. rewrite try_regular_list_unfold.
      destruct (getcwd_allowed (cwd w) (env w)); [|reflexivity].
      intros Hlost. apply try_finally_raises. right. exact Hlost. }
  split; [exact Hraise|].
  intros w0 Hfetch. unfold Fetcher.main, mbind, M_bind. rewrite Hfetch.
  destruct (Fetcher.try_regular_list patch_list w) as [w' [lists|e]];
    [discriminate|]. split; [reflexivity|exact Hout].
Qed.

Lemma unstartable_command_is_fatal_witness :
  is_ok (snd (Fetcher.try_regular_list (host := unstartable_host) [P1; P2; P3]
                (start_world unstartable_host tt))) = false
  /\ is_ok (snd (Fetcher.try_regular_list (host := vanishing_host) [P1]
                   (start_world vanishing_host true))) = false.
Proof.
  split.
  - eapply (proj1 (unstartable_command_is_fatal (host := unstartable_host) [P1; P2; P3]
                     (start_world unstartable_host tt) _ eq_refl _)).
  - eapply (proj1 (unstartable_command_is_fatal (host := vanishing_host) [P1]
                     (start_world vanishing_host true) _ eq_refl _)).
  Unshelve.
  + left. vm_compute. reflexivity.
  + right. vm_compute. reflexivity.
Defined.

(** C9, as it is stated, fails: on a machine without [git] every command of
    the run exits with status 127; the applier carries on, classifies every
    patch as a conflict, and [main] prints the report. *)
Lemma missing_git_is_not_fatal :
  outcome <$> trace (fst (Fetcher.try_regular_list (host := gitless_host) [P1; P2]
                            (start_world gitless_host tt)))
  = [Ok 127; Ok 127; Ok 127; Ok 127; Ok 127; Ok 127]
  /\ snd (Fetcher.try_regular_list (host := gitless_host) [P1; P2]
            (start_world gitless_host tt))
     = Ok ([], [P1; P2])
  /\ snd (Fetcher.main (host := gitless_host) (start_world gitless_host tt)) = Ok tt
  /\ existsb (String.eqb "Unable to merge patches:")
       (stdout (fst (Fetcher.main (host := gitless_host) (start_world gitless_host tt))))
     = true.
Proof. repeat split; vm_compute; reflexivity. Qed.

(** ** Forming the patch list *)

(** The roster loop concatenates what the authors yield, in roster order; an
    author who yields nothing adds nothing. *)
Lemma gather_authors_concatenates {host : Host}
    (roster : list string) (yields : list (list Fetcher.patch)) :
  Forall2 (fun author yielded => forall w,
             snd (Fetcher.get_author_cherry_picks Fetcher.PROJECT author w) = Ok yielded)
          roster yields ->
  forall patch_list w,
    snd (Fetcher.gather_authors roster patch_list w) = Ok (patch_list ++ concat yields)%list.
Proof.
  induction 1 as [|author yielded roster yields Hauthor _ IH]; intros patch_list w.
  - cbn. rewrite app_nil_r. reflexivity.
  - cbn [Fetcher.gather_authors concat]. unfold mbind, M_bind.
    specialize (Hauthor w).
    destruct (Fetcher.get_author_cherry_picks Fetcher.PROJECT author w) as [w1 r].
    cbn in Hauthor. subst r.
    destruct yielded as [|p yielded]; rewrite IH; [reflexivity|].
    rewrite <- app_assoc. reflexivity.
Qed.

Lemma insert_by_url_permutation (p : Fetcher.patch) (l : list Fetcher.patch) :
  Permutation (Fetcher.insert_by_url p l) (p :: l).
Proof.
  induction l as [|q rest IH]; cbn [Fetcher.insert_by_url]; [reflexivity|].
  destruct (String.leb (snd p) (snd q)); [reflexivity|].
  rewrite IH. apply perm_swap.
Qed.

Lemma sort_by_url_permutation (l : list Fetcher.patch) :
  Permutation (Fetcher.sort_by_url l) l.
Proof.
  induction l as [|p rest IH]; [reflexivity|].
  cbn [Fetcher.sort_by_url foldr]. rewrite insert_by_url_permutation.
  apply perm_skip, IH.
Qed.

Lemma insert_by_url_sorted (p : Fetcher.patch) (l : list Fetcher.patch) :
  Sorted url_le l -> Sorted url_le (Fetcher.insert_by_url p l).
Proof.
  induction 1 as [|q rest Hsorted IH Hhead]; cbn [Fetcher.insert_by_url].
  - repeat constructor.
  - destruct (String.leb (snd p) (snd q)) eqn:Hle.
    + repeat constructor; assumption.
    + constructor; [exact IH|].
      destruct Hhead as [|r rest' Hqr]; cbn [Fetcher.insert_by_url].
      * constructor. destruct (String.leb_total (snd p) (snd q)); [congruence|assumption].
      * destruct (String.leb (snd p) (snd r)); constructor; [|exact Hqr].
        destruct (String.leb_total (snd p) (snd q)); [congruence|assumption].
Qed.

Lemma sort_by_url_sorted (l : list Fetcher.patch) :
  Sorted url_le (Fetcher.sort_by_url l).
Proof.
  induction l as [|p rest IH]; [constructor|].
  apply insert_by_url_sorted, IH.
Qed.

(** Stability: the patches that share a URL keep their order. *)
Lemma insert_by_url_stable (url : string) (p : Fetcher.patch) (l : list Fetcher.patch) :
  List.filter (fun q => String.eqb (snd q) url) (Fetcher.insert_by_url p l)
  = List.filter (fun q => String.eqb (snd q) url) (p :: l).
Proof.
  induction l as [|q rest IH]; [reflexivity|].
  cbn [Fetcher.insert_by_url].
  destruct (String.leb (snd p) (snd q)) eqn:Hle; [reflexivity|].
  cbn [List.filter] in *. rewrite IH.
  destruct (String.eqb_spec (snd q) url) as [Hq|_]; [|reflexivity].
  destruct (String.eqb_spec (snd p) url) as [Hp|_]; [|reflexivity].
  rewrite Hp, Hq in Hle.
  destruct (String.leb_total url url); congruence.
Qed.

Lemma sort_by_url_stable (url : string) (l : list Fetcher.patch) :
  List.filter (fun q => String.eqb (snd q) url) (Fetcher.sort_by_url l)
  = List.filter (fun q => String.eqb (snd q) url) l.
Proof.
  induction l as [|p rest IH]; [reflexivity|].
  cbn [Fetcher.sort_by_url foldr]. rewrite insert_by_url_stable.
  cbn [List.filter]. unfold Fetcher.sort_by_url in IH. rewrite IH. reflexivity.
Qed.

(** What [form_patch_list] returns when every fetch succeeds: the yields of
    the roster, concatenated and sorted, whatever [sort] is. *)
Lemma form_patch_list_result {host : Host}
    (yields : list (list Fetcher.patch)) (sort : bool) (w : World) :
  Forall2 (fun author yielded => forall w,
             snd (Fetcher.get_author_cherry_picks Fetcher.PROJECT author w) = Ok yielded)
          Fetcher.AUTHORS yields ->
  snd (Fetcher.form_patch_list sort w) = Ok (Fetcher.sort_by_url (concat yields)).
Proof.
  intros Hyields. unfold Fetcher.form_patch_list, mbind, M_bind.
  pose proof (gather_authors_concatenates _ _ Hyields [] w) as Hgather.
  destruct (Fetcher.gather_authors Fetcher.AUTHORS [] w) as [w1 r].
  cbn in Hgather. subst r. reflexivity.
Qed.

(** Whatever [sort] is, the list is sorted. *)
Lemma form_patch_list_sorts_always {host : Host} (sort : bool) (w : World) :
  Fetcher.form_patch_list sort w = Fetcher.form_patch_list true w.
Proof. reflexivity. Qed.

(** C5, at the input on which the code departs from it: the first author owns
    change 2, the second owns change 1, the others own nothing.  Called with
    [sort] false, [form_patch_list] still returns the list sorted by URL, not
    in the order of concatenation. *)
Theorem sort_argument_is_ignored :
  snd (Fetcher.gather_authors (host := usual_host) Fetcher.AUTHORS []
         (start_world usual_host tt))
  = Ok [ (JStr "pick 2", "https://android-review.googlesource.com/#/c/2/");
         (JStr "pick 1", "https://android-review.googlesource.com/#/c/1/") ]
  /\ snd (Fetcher.form_patch_list (host := usual_host) false (start_world usual_host tt))
     = Ok [ (JStr "pick 1", "https://android-review.googlesource.com/#/c/1/");
            (JStr "pick 2", "https://android-review.googlesource.com/#/c/2/") ].
Proof. split; vm_compute; reflexivity. Qed.

(** * The rest of the code *)

(** ** Strings *)

Lemma string_length_app (s t : string) :
  String.length (s +:+ t) = (String.length s + String.length t)%nat.
Proof.
  induction s as [|a s IH]; [reflexivity|].
  change (String a s +:+ t) with (String a (s +:+ t)).
  cbn [String.length]. rewrite IH. reflexivity.
Qed.

Lemma string_app_inv_tail (s1 s2 t : string) : s1 +:+ t = s2 +:+ t -> s1 = s2.
Proof.
  revert s2. induction s1 as [|a s1 IH]; intros [|b s2] H.
  - reflexivity.
  - apply (f_equal String.length) in H.
    change ("" +:+ t) with t in H. rewrite string_length_app in H.
    cbn [String.length] in H. lia.
  - apply (f_equal String.length) in H.
    change ("" +:+ t) with t in H. rewrite string_length_app in H.
    cbn [String.length] in H. lia.
  - change (String a (s1 +:+ t) = String b (s2 +:+ t)) in H.
    injection H as -> H. f_equal. apply IH, H.
Qed.

(** X1.  For any project and status, two different owners get two different
    query strings: the query tells the authors of the roster apart. *)
Theorem query_tells_owners_apart (project status owner1 owner2 : string) :
  owner1 <> owner2 ->
  Fetcher.make_all_author_patches_query project owner1 status
  <> Fetcher.make_all_author_patches_query project owner2 status.
Proof.
  unfold Fetcher.make_all_author_patches_query.
  intros Hdiff H. apply Hdiff.
  do 3 apply String.app_inj in H.
  exact (string_app_inv_tail _ _ _ H).
Qed.

Lemma query_tells_owners_apart_witness :
  Fetcher.make_all_author_patches_query Fetcher.PROJECT "Duane Sand" "status:open"
  <> Fetcher.make_all_author_patches_query Fetcher.PROJECT "Chris Larsen" "status:open".
Proof. apply query_tells_owners_apart. discriminate. Defined.

(** X2.  Two changes with different integer numbers get different review
    URLs. *)
Theorem review_urls_tell_numbers_apart {host : Host}
    (info1 info2 : Fetcher.CherryPickInfo) (n1 n2 : Z) :
  Fetcher.number info1 = JInt n1 ->
  Fetcher.number info2 = JInt n2 ->
  n1 <> n2 ->
  Fetcher.fetch_fail_url info1 <> Fetcher.fetch_fail_url info2.
Proof.
  unfold Fetcher.fetch_fail_url. intros -> -> Hdiff H. apply Hdiff.
  apply String.app_inj in H. cbn [py_str] in H.
  apply string_app_inv_tail in H.
  exact (pretty_Z_inj _ _ H).
Qed.

Lemma review_urls_tell_numbers_apart_witness :
  Fetcher.fetch_fail_url (host := usual_host)
    (Fetcher.mkCherryPickInfo JNull (JStr "") (JStr "") (JInt 19))
  <> Fetcher.fetch_fail_url (host := usual_host)
       (Fetcher.mkCherryPickInfo JNull (JStr "") (JStr "") (JInt 190)).
Proof.
  apply (review_urls_tell_numbers_apart (host := usual_host) _ _ 19 190);
    [reflexivity|reflexivity|discriminate].
Defined.

Ltac step_field :=
  cbn [mbind result_bind mret result_ret Fetcher.json_response];
  rewrite ?fetch_field_object, ?fetch_field_whole.

(** X3.  A change whose [revisions] is [null] is not refused: the lookups
    start again from the change object, so the command is read from
    [change[current_revision].fetch.http.commands["Cherry Pick"]]. *)
Theorem null_revisions_fall_back_to_change
    (info : Fetcher.CherryPickInfo) (m : gmap string json) (rev_id : string) (cmd : json) :
  Fetcher.json_response info = JObj m ->
  m !! "current_revision" = Some (JStr rev_id) ->
  m !! "revisions" = Some JNull ->
  navigate (JObj m) [rev_id; "fetch"; "http"; "commands"; "Cherry Pick"] = Resolved cmd ->
  Fetcher.fetch_cherry_pick_string info = Ok cmd.
Proof.
  intros Hjson Hrev Hrevs.
  unfold Fetcher.fetch_cherry_pick_string, Fetcher.fetch_current_revision.
  rewrite Hjson. step_field. rewrite Hrev. step_field. rewrite Hrevs.
  cbn [navigate]. step_field.
  destruct (m !! rev_id) as [cur|]; [|discriminate].
  destruct cur as [ | | | | | | cur]; try discriminate.
  step_field.
  destruct (cur !! "fetch") as [fetch|]; [|discriminate].
  destruct fetch as [ | | | | | | fetch]; try discriminate.
  step_field.
  destruct (fetch !! "http") as [http|]; [|discriminate].
  destruct http as [ | | | | | | http]; try discriminate.
  step_field.
  destruct (http !! "commands") as [commands|]; [|discriminate].
  destruct commands as [ | | | | | | commands]; try discriminate.
  step_field.
  destruct (commands !! "Cherry Pick") as [cherry_pick|]; [|discriminate].
  intros [= ->]. reflexivity.
Qed.

Lemma null_revisions_fall_back_to_change_witness :
  Fetcher.fetch_cherry_pick_string
    (Fetcher.mkCherryPickInfo (change_with_null_revisions "pick 7")
       (JStr "2015-09-22 10:00:00") (JStr "2015-09-23 11:30:00") (JInt 7))
  = Ok (JStr "pick 7").
Proof.
  apply (null_revisions_fall_back_to_change _
           (list_to_map (null_revisions_fields "pick 7")) "3f2a");
    vm_compute; reflexivity.
Defined.

(** X4.  What the fetch makes of each decoded response.  An array gives the
    tuples of its elements.  Anything else is iterated as Python iterates
    it: an empty object or an empty string gives the empty list, a non-empty
    one raises [TypeError] at its first key or character, and [null], a
    boolean or a number raises [TypeError] at once. *)
Theorem fetch_by_kind_of_response {host : Host}
    (project author : string) (response : Response) (decoded : json) (w0 w : World) :
  http_get Fetcher.CHANGES_HEADER
    [ ("q", Fetcher.make_all_author_patches_query project author "status:open");
      ("o", "CURRENT_REVISION"); ("o", "DOWNLOAD_COMMANDS") ] = Ok response ->
  snd (Fetcher.decode_response response w0) = Ok decoded ->
  snd (Fetcher.get_author_cherry_picks project author w)
  = match decoded with
    | JArr items => Fetcher.collect_cherry_picks items []
    | JObj m => if decide (m = ∅) then Ok [] else Raise TypeError
    | JStr s => if decide (s = "") then Ok [] else Raise TypeError
    | JNull | JBool _ | JInt _ | JFloat _ => Raise TypeError
    end.
Proof.
  intros Hget Hdecoded.
  rewrite (get_author_cherry_picks_pure _ _ w w0).
  rewrite get_author_cherry_picks_outcome, Hget.
  unfold mbind, result_bind. rewrite Hdecoded.
  destruct decoded as [ | | | | s | items | m]; try reflexivity.
  - destruct s as [|c s]; reflexivity.
  - cbn [py_iter]. destruct (decide (m = ∅)) as [->|Hne].
    + rewrite map_to_list_empty. reflexivity.
    + destruct (map_to_list m) as [|[key value] rest] eqn:Hlist.
      * apply map_to_list_empty_iff in Hlist. contradiction.
      * reflexivity.
Qed.

Lemma fetch_by_kind_of_response_witness :
  snd (Fetcher.get_author_cherry_picks (host := error_object_host)
         Fetcher.PROJECT "Pavle Batuta" (start_world error_object_host tt))
  = Raise TypeError.
Proof.
  rewrite (fetch_by_kind_of_response (host := error_object_host)
             Fetcher.PROJECT "Pavle Batuta"
             (mkResponse (Fetcher.GERRIT_MAGIC_JSON_PREFIX +:+ body_error)
                Fetcher.CHANGES_HEADER 404)
             (obj [("message", JStr "Not Found")])
             (start_world error_object_host tt) (start_world error_object_host tt));
    vm_compute; reflexivity.
Defined.

Lemma collect_cherry_picks_elementwise {host : Host} (items : list json) :
  forall (return_list tuples : list Fetcher.patch),
    Fetcher.collect_cherry_picks items return_list = Ok tuples
    <-> exists added, tuples = (return_list ++ added)%list
          /\ Forall2 (fun data entry => Fetcher.cherry_pick_tuple data = Ok entry)
               items added.
Proof.
  induction items as [|data rest IH]; intros return_list tuples;
    cbn [Fetcher.collect_cherry_picks].
  - split.
    + intros [= <-]. exists []. rewrite app_nil_r. split; [reflexivity|constructor].
    + intros (added & -> & Hall). inversion Hall. rewrite app_nil_r. reflexivity.
  - unfold mbind, result_bind.
    destruct (Fetcher.cherry_pick_tuple data) as [entry|e] eqn:Htuple.
    + rewrite IH. split.
      * intros (added & -> & Hall). exists (entry :: added).
        rewrite <- app_assoc. split; [reflexivity|]. constructor; [exact Htuple|exact Hall].
      * intros (added & -> & Hall).
        inversion Hall as [|? entry' ? added' Hentry Hrest]; subst.
        rewrite Htuple in Hentry. injection Hentry as <-.
        exists added'. rewrite <- app_assoc. split; [reflexivity|exact Hrest].
    + split; [discriminate|].
      intros (added & _ & Hall). inversion Hall as [|? ? ? ? Hentry]; subst.
      rewrite Htuple in Hentry. discriminate.
Qed.

(** X5.  The loop over the response returns a list exactly when every element
    yields its tuple, and the list then holds those tuples, one for each
    element and in the order of the response. *)
Theorem fetch_is_elementwise {host : Host}
    (items : list json) (tuples : list Fetcher.patch) :
  Fetcher.collect_cherry_picks items [] = Ok tuples
  <-> Forall2 (fun data entry => Fetcher.cherry_pick_tuple data = Ok entry) items tuples.
Proof.
  rewrite collect_cherry_picks_elementwise. split.
  - intros (added & -> & Hall). exact Hall.
  - intros Hall. exists tuples. split; [reflexivity|exact Hall].
Qed.

(** X6.  Nothing is caught on the way: an exception of [requests.get] leaves
    the fetch as it is, before anything is printed, and an exception of
    [json.loads] leaves it after the lines an error status may have caused. *)
Theorem transport_and_decoder_errors_propagate {host : Host}
    (project author : string) (w : World) (e : exn) :
  let request :=
    http_get Fetcher.CHANGES_HEADER
      [ ("q", Fetcher.make_all_author_patches_query project author "status:open");
        ("o", "CURRENT_REVISION"); ("o", "DOWNLOAD_COMMANDS") ] in
  (request = Raise e ->
   Fetcher.get_author_cherry_picks project author w = (w, Raise e))
  /\ (forall response,
        request = Ok response ->
        snd (Fetcher.decode_response response w) = Raise e ->
        Fetcher.get_author_cherry_picks project author w
        = (printed w (error_log response), Raise e)).
Proof.
  cbn zeta. split.
  - intros Hget. unfold Fetcher.get_author_cherry_picks, mbind, M_bind, lift.
    rewrite Hget. reflexivity.
  - intros response Hget Hdecode.
    unfold Fetcher.get_author_cherry_picks, mbind, M_bind, lift.
    rewrite Hget. rewrite decode_response_run in Hdecode |- *.
    cbn [snd] in Hdecode. rewrite Hdecode. reflexivity.
Qed.

Lemma transport_and_decoder_errors_propagate_witness :
  Fetcher.get_author_cherry_picks (host := offline_host) Fetcher.PROJECT "Duane Sand"
    (start_world offline_host tt)
  = (start_world offline_host tt, Raise RequestException).
Proof.
  apply (transport_and_decoder_errors_propagate (host := offline_host)).
  reflexivity.
Defined.

Lemma fetch_is_elementwise_witness :
  Fetcher.collect_cherry_picks (host := usual_host)
    [sample_change true 1 "pick 1"; sample_change true 2 "pick 2"] []
  = Ok [ (JStr "pick 1", "https://android-review.googlesource.com/#/c/1/");
         (JStr "pick 2", "https://android-review.googlesource.com/#/c/2/") ].
Proof.
  apply (fetch_is_elementwise (host := usual_host)).
  repeat constructor.
Defined.

(** X7.  The outcome for a change object typed as the schema says does not
    depend on [change_id]: setting it to any value, or removing it, changes
    neither the tuple nor the error. *)
Theorem change_id_is_never_read {host : Host} (m : gmap string json) (value : json) :
  schema_typed (JObj m) = true ->
  Fetcher.cherry_pick_tuple (JObj (<["change_id" := value]> m))
  = Fetcher.cherry_pick_tuple (JObj m)
  /\ Fetcher.cherry_pick_tuple (JObj (delete "change_id" m))
     = Fetcher.cherry_pick_tuple (JObj m).
Proof.
  intros Htyped.
  assert (Hset : resolve_change (JObj (<["change_id" := value]> m))
                 = resolve_change (JObj m)).
  { unfold resolve_change, require. rewrite !lookup_insert_ne by discriminate.
    reflexivity. }
  assert (Hdel : resolve_change (JObj (delete "change_id" m)) = resolve_change (JObj m)).
  { unfold resolve_change, require. rewrite !lookup_delete_ne by discriminate.
    reflexivity. }
  rewrite !cherry_pick_tuple_follows_schema; unfold schema_typed in *;
    rewrite ?Hset, ?Hdel; auto.
Qed.

Lemma change_id_is_never_read_witness :
  Fetcher.cherry_pick_tuple (host := usual_host)
    (JObj (<["change_id" := JStr "I8473b95934b5732ac55d26311a706c9c2bde9940"]>
             (list_to_map [ ("created", JStr "2015-09-22 10:00:00");
                            ("updated", JStr "2015-09-23 11:30:00");
                            ("_number", JInt 5) ])))
  = Raise (field_missing "current_revision").
Proof.
  destruct (change_id_is_never_read (host := usual_host)
              (list_to_map [ ("created", JStr "2015-09-22 10:00:00");
                             ("updated", JStr "2015-09-23 11:30:00");
                             ("_number", JInt 5) ])
              (JStr "I8473b95934b5732ac55d26311a706c9c2bde9940")) as [Hset _].
  - vm_compute. reflexivity.
  - rewrite Hset. vm_compute. reflexivity.
Defined.

(** ** Printing *)

Section PrintLemmas.
Context {host : Host}.

Lemma bind_ok {A B} (m : M A) (f : A -> M B) (w w1 : World) (a : A) :
  m w = (w1, Ok a) -> (m ≫= f) w = f a w1.
Proof. intros H. unfold mbind, M_bind. rewrite H. reflexivity. Qed.

Lemma bind_raise {A B} (m : M A) (f : A -> M B) (w w1 : World) (e : exn) :
  m w = (w1, Raise e) -> (m ≫= f) w = (w1, Raise e).
Proof. intros H. unfold mbind, M_bind. rewrite H. reflexivity. Qed.

Lemma printed_nothing (w : World) : printed w [] = w.
Proof. destruct w. unfold printed. cbn. rewrite app_nil_r. reflexivity. Qed.

Lemma printed_printed (w : World) (lines more : list string) :
  printed (printed w lines) more = printed w (lines ++ more).
Proof. unfold printed. cbn. rewrite app_assoc. reflexivity. Qed.

Lemma print_run (line : string) (w : World) : print line w = (printed w [line], Ok tt).
Proof. reflexivity. Qed.

Lemma print_each_run (lines : list string) (w : World) :
  Fetcher.print_each lines w = (printed w lines, Ok tt).
Proof.
  revert w. induction lines as [|line rest IH]; intros w; cbn [Fetcher.print_each].
  - rewrite printed_nothing. reflexivity.
  - rewrite (bind_ok _ _ _ _ _ (print_run line w)), IH, printed_printed. reflexivity.
Qed.

End PrintLemmas.

Ltac print_step :=
  first [ erewrite bind_ok by apply print_run
        | erewrite bind_ok by apply print_each_run ];
  rewrite ?printed_printed.

Lemma print_report_run {host : Host}
    (start_list regular_list unmerged_list : list Fetcher.patch) (w : World) :
  Fetcher.print_report start_list regular_list unmerged_list w
  = (printed w (report_lines start_list regular_list unmerged_list), Ok tt).
Proof.
  unfold Fetcher.print_report. repeat print_step.
  rewrite print_run, printed_printed.
  unfold report_lines. rewrite <- !app_assoc. reflexivity.
Qed.

(** X8.  [print_report] never fails and touches nothing but the output, to
    which it appends the report: the four heading lines, then the URLs of
    the open patches, the commands that applied, the URLs of the conflicts
    and the commands of the conflicts, each block in the order of its list
    and under its title. *)
Theorem print_report_appends_the_report {host : Host}
    (start_list regular_list unmerged_list : list Fetcher.patch) (w : World) :
  snd (Fetcher.print_report start_list regular_list unmerged_list w) = Ok tt
  /\ stdout (fst (Fetcher.print_report start_list regular_list unmerged_list w))
     = (stdout w ++ report_lines start_list regular_list unmerged_list)%list
  /\ cwd (fst (Fetcher.print_report start_list regular_list unmerged_list w)) = cwd w
  /\ env (fst (Fetcher.print_report start_list regular_list unmerged_list w)) = env w
  /\ trace (fst (Fetcher.print_report start_list regular_list unmerged_list w)) = trace w.
Proof.
  assert (Hrun : Fetcher.print_report start_list regular_list unmerged_list w
                 = (printed w (report_lines start_list regular_list unmerged_list), Ok tt)).
  { unfold Fetcher.print_report. repeat print_step.
    rewrite print_run, printed_printed.
    unfold report_lines. rewrite <- !app_assoc. reflexivity. }
  rewrite Hrun. repeat split.
Qed.

(** X9.  [test_print] never fails and touches nothing but the output, to
    which it appends every command, one empty line and every URL, both
    blocks in the order of the list. *)
Theorem test_print_appends_commands_then_urls {host : Host}
    (in_list : list Fetcher.patch) (w : World) :
  Fetcher.test_print in_list w
  = (printed w (((fun elem => py_str container_str (fst elem)) <$> in_list)
                ++ "" :: (snd <$> in_list)), Ok tt).
Proof.
  unfold Fetcher.test_print. repeat print_step.
  rewrite print_each_run, printed_printed, <- !app_assoc. reflexivity.
Qed.

(** ** The fetch phase keeps to the network *)

Section FetchFrame.
Context {host : Host}.

Lemma get_author_cherry_picks_frame (project author : string) (w : World) :
  exists lines, fst (Fetcher.get_author_cherry_picks project author w) = printed w lines.
Proof.
  unfold Fetcher.get_author_cherry_picks, mbind, M_bind, lift.
  destruct (http_get _ _) as [response|e];
    [|exists []; rewrite printed_nothing; reflexivity].
  rewrite decode_response_run. exists (error_log response).
  destruct (json_loads _) as [decoded|e]; [|reflexivity].
  destruct (py_iter decoded); reflexivity.
Qed.

Lemma gather_authors_frame (roster : list string) :
  forall (patch_list : list Fetcher.patch) (w : World),
  exists lines, fst (Fetcher.gather_authors roster patch_list w) = printed w lines.
Proof.
  induction roster as [|author rest IH]; intros patch_list w.
  - exists []. rewrite printed_nothing. reflexivity.
  - cbn [Fetcher.gather_authors]. unfold mbind, M_bind.
    destruct (get_author_cherry_picks_frame Fetcher.PROJECT author w) as [lines Hlines].
    destruct (Fetcher.get_author_cherry_picks Fetcher.PROJECT author w)
      as [w1 [author_result|e]]; cbn [fst] in Hlines; subst w1.
    + assert (Hrest : forall acc, exists more,
                fst (Fetcher.gather_authors rest acc (printed w lines)) = printed w more).
      { intros acc. destruct (IH acc (printed w lines)) as [more Hmore].
        exists (lines ++ more)%list. rewrite Hmore, printed_printed. reflexivity. }
      destruct author_result; apply Hrest.
    + exists lines. reflexivity.
Qed.

Lemma form_patch_list_frame (sort : bool) (w : World) :
  exists lines, fst (Fetcher.form_patch_list sort w) = printed w lines.
Proof.
  unfold Fetcher.form_patch_list, mbind, M_bind.
  destruct (gather_authors_frame Fetcher.AUTHORS [] w) as [lines Hlines].
  destruct (Fetcher.gather_authors Fetcher.AUTHORS [] w) as [w1 [patch_list|e]];
    cbn [fst] in Hlines; subst w1; exists lines; reflexivity.
Qed.

End FetchFrame.

(** X10.  Forming the patch list starts no shell command and leaves the
    working directory and everything outside the process alone; so when it
    raises, [main] raises the same exception before any [git] command has
    run. *)
Theorem fetching_runs_no_command {host : Host} (sort : bool) (w : World) :
  (cwd (fst (Fetcher.form_patch_list sort w)) = cwd w
   /\ env (fst (Fetcher.form_patch_list sort w)) = env w
   /\ trace (fst (Fetcher.form_patch_list sort w)) = trace w)
  /\ (forall e, snd (Fetcher.form_patch_list true w) = Raise e ->
        snd (Fetcher.main w) = Raise e
        /\ trace (fst (Fetcher.main w)) = trace w
        /\ cwd (fst (Fetcher.main w)) = cwd w
        /\ env (fst (Fetcher.main w)) = env w).
Proof.
  split.
  - destruct (form_patch_list_frame sort w) as [lines ->]. repeat split.
  - intros e Hraise. unfold Fetcher.main, mbind, M_bind.
    destruct (form_patch_list_frame true w) as [lines Hlines].
    destruct (Fetcher.form_patch_list true w) as [w1 r].
    cbn in Hraise, Hlines. subst r w1. repeat split.
Qed.

Lemma fetching_runs_no_command_witness :
  snd (Fetcher.main (host := offline_host) (start_world offline_host tt))
  = Raise RequestException
  /\ trace (fst (Fetcher.main (host := offline_host) (start_world offline_host tt))) = [].
Proof.
  destruct (fetching_runs_no_command (host := offline_host) true
              (start_world offline_host tt)) as [_ Hmain].
  destruct (Hmain RequestException) as (Hraise & Htrace & _).
  - vm_compute. reflexivity.
  - split; [exact Hraise|exact Htrace].
Defined.

(** ** Where the applier runs its commands *)

Section CallLemmas.
Context {host : Host}.

Lemma attempt_outcome_calls (quiet : bool) (abort : string) (cmd : json) (w : World) :
  exists new,
    trace (fst (attempt_outcome quiet abort cmd w)) = (trace w ++ new)%list
    /\ Forall (fun c => in_dir c = cwd w /\ muted c = quiet) new
    /\ cwd (fst (attempt_outcome quiet abort cmd w)) = cwd w.
Proof.
  unfold attempt_outcome.
  destruct (run_shell cmd quiet (cwd w) (env w)) as [env1 [status|e]].
  - destruct (status =? 0).
    + eexists. split; [reflexivity|]. split; [|reflexivity]. repeat constructor.
    + destruct (run_shell (JStr abort) quiet (cwd w) env1) as [env2 [abort_status|e]];
        eexists; cbn [fst trace cwd]; rewrite <- app_assoc;
        (split; [reflexivity|]); (split; [|reflexivity]); repeat constructor.
  - eexists. split; [reflexivity|]. split; [|reflexivity]. repeat constructor.
Qed.

Lemma apply_patches_calls (patch_list : list Fetcher.patch) :
  forall (regular_list unmerged_list : list Fetcher.patch) (w : World),
  exists new,
    trace (fst (Fetcher.apply_patches patch_list regular_list unmerged_list w))
    = (trace w ++ new)%list
    /\ Forall (fun c => in_dir c = cwd w /\ muted c = true) new.
Proof.
  induction patch_list as [|p rest IH]; intros regular_list unmerged_list w.
  - exists []. rewrite app_nil_r. split; [reflexivity|constructor].
  - cbn [Fetcher.apply_patches]. unfold mbind, M_bind.
    rewrite fetcher_try_cherry_pick_run.
    destruct (attempt_outcome_calls true Fetcher.GIT_ABORT_CHERRY_PICK (fst p) w)
      as (new1 & Htrace1 & Hall1 & Hcwd1).
    destruct (attempt_outcome true Fetcher.GIT_ABORT_CHERRY_PICK (fst p) w)
      as [w1 [applied|e]]; cbn [fst] in *.
    + assert (Hrest : forall regular unmerged, exists new,
        trace (fst (Fetcher.apply_patches rest regular unmerged w1)) = (trace w ++ new)%list
        /\ Forall (fun c => in_dir c = cwd w /\ muted c = true) new).
      { intros regular unmerged.
        destruct (IH regular unmerged w1) as (new2 & Htrace2 & Hall2).
        exists (new1 ++ new2)%list.
        split; [rewrite Htrace2, Htrace1, app_assoc; reflexivity|].
        apply Forall_app. split; [exact Hall1|]. rewrite <- Hcwd1. exact Hall2. }
      destruct applied; apply Hrest.
    + exists new1. split; [exact Htrace1|exact Hall1].
Qed.

End CallLemmas.

(** X11.  Every shell command of the applier is started quietly from inside
    the repository, and the first two are the checkout of the integration
    branch and the hard reset, in this order: no patch is tried before them.
    This holds on every host, whichever calls fail or raise. *)
Theorem applier_commands_run_in_repository {host : Host}
    (patch_list : list Fetcher.patch) (w : World) :
  exists new,
    trace (fst (Fetcher.try_regular_list patch_list w)) = (trace w ++ new)%list
    /\ Forall in_repository new
    /\ (command <$> take 2 new)
       `prefix_of` [ JStr Fetcher.GIT_CHECKOUT_AUTOMERGE_BRANCH;
                     JStr Fetcher.GIT_FULL_RESET_AOSP ].
Proof.
  assert (Hnone : exists new : list Call,
    trace w = (trace w ++ new)%list /\ Forall in_repository new
    /\ (command <$> take 2 new)
       `prefix_of` [ JStr Fetcher.GIT_CHECKOUT_AUTOMERGE_BRANCH;
                     JStr Fetcher.GIT_FULL_RESET_AOSP ]).
  { exists []. rewrite app_nil_r. split; [reflexivity|]. split; [constructor|].
    apply prefix_nil. }
  rewrite try_regular_list_unfold.
  destruct (getcwd_allowed (cwd w) (env w)); [|exact Hnone].
  match goal with
  | |- context [try_finally ?b (os_chdir ?p) w] =>
      destruct (try_finally_frame b p w) as [-> _]
  end.
  unfold mbind, M_bind, os_chdir.
  destruct (chdir_allowed Fetcher.PATH (env w)); [|exact Hnone].
  rewrite !call_bash_muted_run. cbn [cwd env stdout trace].
  destruct (run_shell (JStr Fetcher.GIT_CHECKOUT_AUTOMERGE_BRANCH) true Fetcher.PATH (env w))
    as [env1 [checkout|e]]; cbn [fst snd].
  2:{ eexists. split; [reflexivity|]. split; [repeat constructor|].
      exists [JStr Fetcher.GIT_FULL_RESET_AOSP]. reflexivity. }
  destruct (run_shell (JStr Fetcher.GIT_FULL_RESET_AOSP) true Fetcher.PATH env1)
    as [env2 [reset|e]]; cbn [fst snd].
  2:{ eexists. rewrite <- app_assoc. split; [reflexivity|]. split; [repeat constructor|].
      exists []. reflexivity. }
  match goal with
  | |- context [Fetcher.apply_patches patch_list [] [] ?w2] =>
      destruct (apply_patches_calls patch_list [] [] w2) as (new & Htrace & Hall)
  end.
  exists (mkCall (JStr Fetcher.GIT_CHECKOUT_AUTOMERGE_BRANCH) true Fetcher.PATH (Ok checkout)
          :: mkCall (JStr Fetcher.GIT_FULL_RESET_AOSP) true Fetcher.PATH (Ok reset)
          :: new).
  split; [rewrite Htrace; cbn [trace]; rewrite <- !app_assoc; reflexivity|].
  split; [|exists []; reflexivity].
  repeat (constructor; [split; reflexivity|]). exact Hall.
Qed.

(** X12.  When the repository cannot be entered, neither program starts a
    shell command: the applier neither checks out nor resets anything in the
    directory it was called from, the diagnostic tries no cherry-pick and
    prints no verdict, and both raise. *)
Theorem nothing_runs_outside_the_repository {host : Host}
    (patch_list : list Fetcher.patch) (w : World) :
  (chdir_allowed Fetcher.PATH (env w) = false ->
   trace (fst (Fetcher.try_regular_list patch_list w)) = trace w
   /\ is_ok (snd (Fetcher.try_regular_list patch_list w)) = false)
  /\ (chdir_allowed Commit.PATH (env w) = false ->
      trace (fst (Commit.main w)) = trace w
      /\ stdout (fst (Commit.main w)) = stdout w
      /\ is_ok (snd (Commit.main w)) = false).
Proof.
  assert (Hclosed_dir : forall path, chdir_allowed path (env w) = false ->
            os_chdir path w = (w, Raise OSError)).
  { intros path Hclosed. unfold os_chdir. rewrite Hclosed. reflexivity. }
  split; intros Hclosed.
  - rewrite try_regular_list_unfold.
    destruct (getcwd_allowed (cwd w) (env w)); [|split; reflexivity].
    match goal with
    | |- context [try_finally ?b (os_chdir ?p) w] =>
        destruct (try_finally_frame b p w) as [-> _];
        pose proof (try_finally_raises b p w) as Hraises;
        assert (Hbody : b w = (w, Raise OSError))
          by (apply bind_raise, Hclosed_dir, Hclosed)
    end.
    rewrite Hbody in Hraises |- *. split; [reflexivity|].
    apply Hraises. left. reflexivity.
  - rewrite commit_main_unfold.
    destruct (getcwd_allowed (cwd w) (env w)); [|repeat split; reflexivity].
    match goal with
    | |- context [try_finally ?b (os_chdir ?p) w] =>
        destruct (try_finally_frame b p w) as [-> ->];
        pose proof (try_finally_raises b p w) as Hraises;
        assert (Hbody : b w = (w, Raise OSError))
          by (apply bind_raise, Hclosed_dir, Hclosed)
    end.
    rewrite Hbody in Hraises |- *. split; [reflexivity|]. split; [reflexivity|].
    apply Hraises. left. reflexivity.
Qed.

Lemma nothing_runs_outside_the_repository_witness :
  trace (fst (Fetcher.try_regular_list (host := no_repository_host) [P1; P2; P3]
                (start_world no_repository_host tt))) = []
  /\ stdout (fst (Commit.main (host := no_repository_host)
                    (start_world no_repository_host tt))) = [].
Proof.
  destruct (nothing_runs_outside_the_repository (host := no_repository_host)
              [P1; P2; P3] (start_world no_repository_host tt)) as [Hfetcher Hcommit].
  split.
  - apply Hfetcher. reflexivity.
  - apply Hcommit. reflexivity.
Defined.

(** ** No patch is lost *)

Section PartitionLemmas.
Context {host : Host}.

Lemma apply_patches_conserves (patch_list : list Fetcher.patch) :
  forall (regular_list unmerged_list applied conflicts : list Fetcher.patch) (w : World),
    snd (Fetcher.apply_patches patch_list regular_list unmerged_list w)
    = Ok (applied, conflicts) ->
    exists merged unmerged,
      applied = (regular_list ++ merged)%list
      /\ conflicts = (unmerged_list ++ unmerged)%list
      /\ sublist merged patch_list
      /\ sublist unmerged patch_list
      /\ Permutation (merged ++ unmerged) patch_list.
Proof.
  induction patch_list as [|p rest IH];
    intros regular_list unmerged_list applied conflicts w;
    cbn [Fetcher.apply_patches].
  - intros [= <- <-]. exists [], []. rewrite !app_nil_r.
    repeat split; constructor.
  - unfold mbind, M_bind.
    destruct (Fetcher.try_cherry_pick (fst p) w) as [w1 [[|]|e]]; [| |discriminate].
    + intros Hrest. apply IH in Hrest as (merged & unmerged & -> & -> & Hm & Hu & Hperm).
      exists (p :: merged), unmerged. rewrite <- app_assoc.
      repeat split; [by apply sublist_skip|by apply sublist_cons|].
      cbn. by apply perm_skip.
    + intros Hrest. apply IH in Hrest as (merged & unmerged & -> & -> & Hm & Hu & Hperm).
      exists merged, (p :: unmerged). rewrite <- app_assoc.
      repeat split; [by apply sublist_cons|by apply sublist_skip|].
      rewrite <- Hperm. symmetry. apply Permutation_middle.
Qed.

Lemma try_finally_returns {A} (body : M A) (cleanup : M unit) (w : World) (a : A) :
  snd (try_finally body cleanup w) = Ok a -> snd (body w) = Ok a.
Proof.
  unfold try_finally. destruct (body w) as [w1 r].
  destruct (cleanup w1) as [w2 [[]|e]]; [auto|discriminate].
Qed.

End PartitionLemmas.

(** X13.  Whenever the applier returns, on any host, its two lists share out
    the patch list: each is a subsequence of it, in its order, and together
    they hold every patch exactly as often as the list does.  No patch is
    dropped, repeated or reported twice. *)
Theorem applier_conserves_patches {host : Host}
    (patch_list applied conflicts : list Fetcher.patch) (w : World) :
  snd (Fetcher.try_regular_list patch_list w) = Ok (applied, conflicts) ->
  sublist applied patch_list
  /\ sublist conflicts patch_list
  /\ Permutation (applied ++ conflicts) patch_list.
Proof.
  rewrite try_regular_list_unfold.
  destruct (getcwd_allowed (cwd w) (env w)); [|discriminate].
  intros Hreturn%try_finally_returns. revert Hreturn.
  unfold mbind, M_bind.
  destruct (os_chdir Fetcher.PATH w) as [w0 [[]|e]]; [|discriminate].
  destruct (Fetcher.call_bash_muted _ w0) as [w1 [checkout|e]]; [|discriminate].
  destruct (Fetcher.call_bash_muted _ w1) as [w2 [reset|e]]; [|discriminate].
  intros (merged & unmerged & -> & -> & Hm & Hu & Hperm)%apply_patches_conserves.
  auto.
Qed.

Lemma applier_conserves_patches_witness :
  sublist [P1; P3] [P1; P2; P3]
  /\ sublist [P2] [P1; P2; P3]
  /\ Permutation ([P1; P3] ++ [P2]) [P1; P2; P3].
Proof.
  apply (applier_conserves_patches (host := usual_host) _ _ _ (start_world usual_host tt)).
  vm_compute. reflexivity.
Defined.

(** X14.  When the fetch and the applier both return, [main] returns too and
    has printed, after whatever the fetch printed, the report on exactly
    these lists: the fetched patches as open patches, then the two lists of
    the applier.  It leaves the process where the applier left it. *)
Theorem main_reports_the_run {host : Host}
    (w w1 w2 : World) (fetched applied conflicts : list Fetcher.patch) :
  Fetcher.form_patch_list true w = (w1, Ok fetched) ->
  Fetcher.try_regular_list fetched w1 = (w2, Ok (applied, conflicts)) ->
  Fetcher.main w = (printed w2 (report_lines fetched applied conflicts), Ok tt)
  /\ stdout w2 = stdout w1.
Proof.
  intros Hfetch Happly. split.
  - unfold Fetcher.main.
    rewrite (bind_ok _ _ _ _ _ Hfetch), (bind_ok _ _ _ _ _ Happly).
    apply print_report_run.
  - destruct (try_regular_list_frame fetched w1) as [Hout _].
    rewrite Happly in Hout. exact Hout.
Qed.

Lemma main_reports_the_run_witness :
  Fetcher.main (host := usual_host) (start_world usual_host tt)
  = (printed (fst (Fetcher.try_regular_list (host := usual_host)
                     [ (JStr "pick 1", "https://android-review.googlesource.com/#/c/1/");
                       (JStr "pick 2", "https://android-review.googlesource.com/#/c/2/") ]
                     (start_world usual_host tt)))
       (report_lines (host := usual_host)
          [ (JStr "pick 1", "https://android-review.googlesource.com/#/c/1/");
            (JStr "pick 2", "https://android-review.googlesource.com/#/c/2/") ]
          [ (JStr "pick 1", "https://android-review.googlesource.com/#/c/1/");
            (JStr "pick 2", "https://android-review.googlesource.com/#/c/2/") ]
          []),
     Ok tt)
  /\ stdout (fst (Fetcher.try_regular_list (host := usual_host)
                    [ (JStr "pick 1", "https://android-review.googlesource.com/#/c/1/");
                      (JStr "pick 2", "https://android-review.googlesource.com/#/c/2/") ]
                    (start_world usual_host tt)))
     = stdout (start_world usual_host tt).
Proof.
  apply (main_reports_the_run (host := usual_host)); vm_compute; reflexivity.
Defined.

(** X15.  On a host where no system call raises, the diagnostic of
    [commit.py] tries the example command, not muted, from inside the
    repository, aborts when it fails, prints [OKAY] when its exit status is
    zero and [NOT OKAY] otherwise, and returns to the directory it was
    called from. *)
Theorem commit_main_prints_the_verdict {host : Host} (Hdep : dependable host) (w : World) :
  exists (status abort_status : Z),
    snd (Commit.main w) = Ok tt
    /\ stdout (fst (Commit.main w)) = (stdout w ++ [verdict status])%list
    /\ trace (fst (Commit.main w))
       = (trace w
          ++ mkCall (JStr Commit.EXAMPLE) false Commit.PATH (Ok status)
          :: (if status =? 0 then []
              else [mkCall (JStr Commit.ABORT_COMMAND) false Commit.PATH (Ok abort_status)]))%list
    /\ cwd (fst (Commit.main w)) = cwd w.
Proof.
  destruct Hdep as (Hshell & Hchdir & Hgetcwd).
  rewrite commit_main_unfold, Hgetcwd.
  unfold try_finally, Commit.work, mbind, M_bind, os_chdir.
  rewrite Hchdir, commit_try_cherry_pick_run. unfold attempt_outcome. cbn [cwd env stdout trace].
  destruct (Hshell (JStr Commit.EXAMPLE) false Commit.PATH (env w)) as [status Hstatus].
  destruct (run_shell (JStr Commit.EXAMPLE) false Commit.PATH (env w)) as [env1 r].
  cbn in Hstatus. subst r.
  destruct (Hshell (JStr Commit.ABORT_COMMAND) false Commit.PATH env1)
    as [abort_status Habort].
  exists status, abort_status. unfold verdict.
  destruct (status =? 0).
  - cbn. rewrite Hchdir. repeat split.
  - destruct (run_shell (JStr Commit.ABORT_COMMAND) false Commit.PATH env1) as [env2 r2].
    cbn in Habort. subst r2. cbn. rewrite Hchdir, <- app_assoc. repeat split.
Qed.

Lemma commit_main_prints_the_verdict_witness :
  exists (status abort_status : Z),
    snd (Commit.main (host := usual_host) (start_world usual_host tt)) = Ok tt
    /\ stdout (fst (Commit.main (host := usual_host) (start_world usual_host tt)))
       = (stdout (start_world usual_host tt) ++ [verdict status])%list
    /\ trace (fst (Commit.main (host := usual_host) (start_world usual_host tt)))
       = (trace (start_world usual_host tt)
          ++ mkCall (JStr Commit.EXAMPLE) false Commit.PATH (Ok status)
          :: (if status =? 0 then []
              else [mkCall (JStr Commit.ABORT_COMMAND) false Commit.PATH (Ok abort_status)]))%list
    /\ cwd (fst (Commit.main (host := usual_host) (start_world usual_host tt)))
       = cwd (start_world usual_host tt).
Proof.
  apply (commit_main_prints_the_verdict (host := usual_host) usual_host_is_dependable).
Defined.

(** X16.  When every author of the roster yields a list, [form_patch_list]
    returns, whatever [sort] is, the concatenation of these lists in roster
    order put in ascending order of URL: the result is sorted, holds the same
    patches as the concatenation, and patches with the same URL keep the
    order they had in it. *)
Theorem patch_list_is_the_sorted_concatenation {host : Host}
    (yields : list (list Fetcher.patch)) (sort : bool) (w : World) :
  Forall2 (fun author yielded => forall w,
             snd (Fetcher.get_author_cherry_picks Fetcher.PROJECT author w) = Ok yielded)
          Fetcher.AUTHORS yields ->
  exists patch_list,
    snd (Fetcher.form_patch_list sort w) = Ok patch_list
    /\ Sorted url_le patch_list
    /\ Permutation patch_list (concat yields)
    /\ forall url,
         List.filter (fun p => String.eqb (snd p) url) patch_list
         = List.filter (fun p => String.eqb (snd p) url) (concat yields).
Proof.
  intros Hyields. exists (Fetcher.sort_by_url (concat yields)).
  split; [exact (form_patch_list_result yields sort w Hyields)|].
  split; [apply sort_by_url_sorted|].
  split; [apply sort_by_url_permutation|].
  intros url. apply sort_by_url_stable.
Qed.

Lemma patch_list_is_the_sorted_concatenation_witness :
  exists patch_list,
    snd (Fetcher.form_patch_list (host := usual_host) false (start_world usual_host tt))
    = Ok patch_list
    /\ Sorted url_le patch_list
    /\ Permutation patch_list
         (concat [ [ (JStr "pick 2", "https://android-review.googlesource.com/#/c/2/") ];
                   [ (JStr "pick 1", "https://android-review.googlesource.com/#/c/1/") ];
                   []; []; []; []; []; [] ])
    /\ forall url,
         List.filter (fun p => String.eqb (snd p) url) patch_list
         = List.filter (fun p => String.eqb (snd p) url)
             (concat [ [ (JStr "pick 2", "https://android-review.googlesource.com/#/c/2/") ];
                       [ (JStr "pick 1", "https://android-review.googlesource.com/#/c/1/") ];
                       []; []; []; []; []; [] ]).
Proof.
  apply (patch_list_is_the_sorted_concatenation (host := usual_host)).
  repeat constructor;
    intros w; rewrite (get_author_cherry_picks_pure _ _ w (start_world usual_host tt));
    vm_compute; reflexivity.
Defined.

(** X17.  An element of the response that is not a JSON object is refused
    with [TypeError], not with the field-missing [KeyError]: the constructor
    subscripts it with a field name before anything else. *)
Theorem constructor_refuses_what_is_no_object {host : Host} (data : json) :
  (forall m, data <> JObj m) ->
  Fetcher.CherryPickInfo_init data = Raise TypeError
  /\ forall rest return_list,
       Fetcher.collect_cherry_picks (data :: rest) return_list = Raise TypeError.
Proof.
  intros Hnot.
  assert (Hinit : Fetcher.CherryPickInfo_init data = Raise TypeError).
  { destruct data as [ | | | | | | m]; try reflexivity. destruct (Hnot m eq_refl). }
  split; [exact Hinit|].
  intros rest return_list. cbn [Fetcher.collect_cherry_picks].
  unfold Fetcher.cherry_pick_tuple. rewrite Hinit. reflexivity.
Qed.

Lemma constructor_refuses_what_is_no_object_witness :
  Fetcher.collect_cherry_picks (host := usual_host)
    [JArr [JStr "pick 1"]; sample_change true 2 "pick 2"] []
  = Raise TypeError.
Proof.
  apply (constructor_refuses_what_is_no_object (host := usual_host)).
  discriminate.
Defined.

(** ** An exception ends the run *)

Section HaltLemmas.
Context {host : Host}.

Lemma attempt_outcome_halts (quiet : bool) (abort : string) (cmd : json) (w : World) :
  exists new,
    trace (fst (attempt_outcome quiet abort cmd w)) = (trace w ++ new)%list
    /\ Forall (fun c => raised c = false) (removelast new)
    /\ (is_ok (snd (attempt_outcome quiet abort cmd w)) = true ->
        Forall (fun c => raised c = false) new).
Proof.
  unfold attempt_outcome.
  destruct (run_shell cmd quiet (cwd w) (env w)) as [env1 [status|e]].
  - destruct (status =? 0).
    + eexists. split; [reflexivity|]. split; [constructor|]. intros _. repeat constructor.
    + destruct (run_shell (JStr abort) quiet (cwd w) env1) as [env2 [abort_status|e]];
        eexists; cbn [fst snd trace]; rewrite <- app_assoc;
        (split; [reflexivity|]); (split; [repeat constructor|]);
        first [discriminate | intros _; repeat constructor].
  - eexists. split; [reflexivity|]. split; [constructor|]. discriminate.
Qed.

Lemma apply_patches_halts (patch_list : list Fetcher.patch) :
  forall (regular_list unmerged_list : list Fetcher.patch) (w : World),
  exists new,
    trace (fst (Fetcher.apply_patches patch_list regular_list unmerged_list w))
    = (trace w ++ new)%list
    /\ Forall (fun c => raised c = false) (removelast new)
    /\ (is_ok (snd (Fetcher.apply_patches patch_list regular_list unmerged_list w)) = true ->
        Forall (fun c => raised c = false) new).
Proof.
  induction patch_list as [|p rest IH]; intros regular_list unmerged_list w.
  - exists []. rewrite app_nil_r. repeat split; constructor.
  - cbn [Fetcher.apply_patches]. unfold mbind, M_bind.
    rewrite fetcher_try_cherry_pick_run.
    destruct (attempt_outcome_halts true Fetcher.GIT_ABORT_CHERRY_PICK (fst p) w)
      as (new1 & Htrace1 & Hlast1 & Hall1).
    destruct (attempt_outcome true Fetcher.GIT_ABORT_CHERRY_PICK (fst p) w)
      as [w1 [applied|e]]; cbn [fst snd is_ok] in *.
    + specialize (Hall1 eq_refl).
      assert (Hrest : forall regular unmerged, exists new,
        trace (fst (Fetcher.apply_patches rest regular unmerged w1)) = (trace w ++ new)%list
        /\ Forall (fun c => raised c = false) (removelast new)
        /\ (is_ok (snd (Fetcher.apply_patches rest regular unmerged w1)) = true ->
            Forall (fun c => raised c = false) new)).
      { intros regular unmerged.
        destruct (IH regular unmerged w1) as (new2 & Htrace2 & Hlast2 & Hall2).
        exists (new1 ++ new2)%list.
        split; [rewrite Htrace2, Htrace1, app_assoc; reflexivity|]. split.
        - destruct new2 as [|c new2].
          + rewrite app_nil_r. apply Forall_forall. intros c Hin.
            apply (proj1 (Forall_forall _ _) Hall1). apply list_elem_of_In.
            apply list_elem_of_In in Hin. clear -Hin.
            induction new1 as [|a [|b new1] IHn]; cbn in *; [tauto|tauto|].
            destruct Hin as [->|Hin]; [left; reflexivity|right; apply IHn, Hin].
          + rewrite removelast_app by discriminate.
            apply Forall_app. split; assumption.
        - intros Hok. apply Forall_app. split; [exact Hall1|apply Hall2, Hok]. }
      destruct applied; apply Hrest.
    + exists new1. split; [exact Htrace1|]. split; [exact Hlast1|discriminate].
Qed.

End HaltLemmas.

(** X18.  An exception ends the run of the applier at once: in the shell
    history of a run only the last call can be one that raised, so after a
    command that could not be started no other command is started, not even
    the abort. *)
Theorem nothing_runs_after_an_exception {host : Host}
    (patch_list : list Fetcher.patch) (w : World) :
  exists new,
    trace (fst (Fetcher.try_regular_list patch_list w)) = (trace w ++ new)%list
    /\ Forall (fun c => raised c = false) (removelast new).
Proof.
  assert (Hnone : exists new : list Call,
    trace w = (trace w ++ new)%list
    /\ Forall (fun c => raised c = false) (removelast new)).
  { exists []. rewrite app_nil_r. split; [reflexivity|constructor]. }
  rewrite try_regular_list_unfold.
  destruct (getcwd_allowed (cwd w) (env w)); [|exact Hnone].
  match goal with
  | |- context [try_finally ?b (os_chdir ?p) w] =>
      destruct (try_finally_frame b p w) as [-> _]
  end.
  unfold mbind, M_bind, os_chdir.
  destruct (chdir_allowed Fetcher.PATH (env w)); [|exact Hnone].
  rewrite !call_bash_muted_run. cbn [cwd env stdout trace].
  destruct (run_shell (JStr Fetcher.GIT_CHECKOUT_AUTOMERGE_BRANCH) true Fetcher.PATH (env w))
    as [env1 [checkout|e]]; cbn [fst snd].
  2:{ eexists. split; [reflexivity|constructor]. }
  destruct (run_shell (JStr Fetcher.GIT_FULL_RESET_AOSP) true Fetcher.PATH env1)
    as [env2 [reset|e]]; cbn [fst snd].
  2:{ eexists. rewrite <- app_assoc. split; [reflexivity|repeat constructor]. }
  match goal with
  | |- context [Fetcher.apply_patches patch_list [] [] ?w2] =>
      destruct (apply_patches_halts patch_list [] [] w2) as (new & Htrace & Hlast & _)
  end.
  exists (mkCall (JStr Fetcher.GIT_CHECKOUT_AUTOMERGE_BRANCH) true Fetcher.PATH (Ok checkout)
          :: mkCall (JStr Fetcher.GIT_FULL_RESET_AOSP) true Fetcher.PATH (Ok reset)
          :: new).
  split; [rewrite Htrace; cbn [trace]; rewrite <- !app_assoc; reflexivity|].
  destruct new as [|c new]; [repeat constructor|].
  change (Forall (fun c => raised c = false)
            (mkCall (JStr Fetcher.GIT_CHECKOUT_AUTOMERGE_BRANCH) true Fetcher.PATH (Ok checkout)
             :: mkCall (JStr Fetcher.GIT_FULL_RESET_AOSP) true Fetcher.PATH (Ok reset)
             :: removelast (c :: new))).
  repeat (constructor; [reflexivity|]). exact Hlast.
Qed.
